(** * DESED task 4 baseline: the training recipe [train_sed.py]

    A shallow embedding of [recipes/dcase2021_task4_baseline/train_sed.py]:
    the preprocessing step [resample_data_generate_durations], the run
    set-up and orchestration [single_run], and the script entry point.

    Configuration values are Python values ([pyval]); Python exceptions
    raised by the recipe itself are values of [exn]; the calls into
    the collaborators (pandas, torch, pytorch-lightning, the [desed_task]
    and [local] packages) are either symbolic constructions (records that
    keep the arguments of the call) or, when they act on the outside world,
    events appended to a trace. *)

From Stdlib Require Import ZArith QArith Qround Lia List Permutation Ascii String.
From stdpp Require Import gmap strings list pretty.

Set Warnings "-register-all".
Local Open Scope Z_scope.

(** ** Python values *)

(** The values a YAML configuration or a checkpoint holds. A float is kept
    as the rational its literal denotes; mappings are keyed by strings, as
    every section of the configuration is. *)
Inductive pyval : Type :=
| VNone
| VBool (b : bool)
| VInt (z : Z)
| VFloat (q : Q)
| VStr (s : string)
| VList (l : list pyval)
| VDict (d : gmap string pyval).

(** Exceptions the recipe's own expressions can raise. [NotModelled] marks
    float arithmetic, whose IEEE result this development does not compute. *)
Inductive exn : Type :=
| KeyError (k : pyval)
| IndexError
| ZeroDivisionError
| TypeError
| AttributeError
| ValueError
| NameError
| NotModelled.

Definition result (A : Type) : Type := (exn + A)%type.

(** [bool(v)]: the truth value Python's [if v:] tests. *)
Definition truthy (v : pyval) : bool :=
  match v with
  | VNone => false
  | VBool b => b
  | VInt z => negb (z =? 0)
  | VFloat q => negb (Qeq_bool q 0)
  | VStr s => match s with EmptyString => false | _ => true end
  | VList l => match l with [] => false | _ => true end
  | VDict d => match map_to_list d with [] => false | _ => true end
  end.

(** [v is None] *)
Definition is_None (v : pyval) : bool :=
  match v with VNone => true | _ => false end.

(** [bool] is a subclass of [int]: both take part in integer arithmetic. *)
Definition as_int (v : pyval) : option Z :=
  match v with
  | VInt z => Some z
  | VBool b => Some (Z.b2z b)
  | _ => None
  end.

(** [v[k]] for a string key. *)
Definition getitem (v : pyval) (k : string) : result pyval :=
  match v with
  | VDict d => match d !! k with Some x => inr x | None => inl (KeyError (VStr k)) end
  | _ => inl TypeError
  end.

(** [v[k] = x] for a string key. *)
Definition setitem (v : pyval) (k : string) (x : pyval) : result pyval :=
  match v with
  | VDict d => inr (VDict (<[k := x]> d))
  | _ => inl TypeError
  end.

(** [v.get(k)] *)
Definition dict_get (v : pyval) (k : string) : result pyval :=
  match v with
  | VDict d => inr (default VNone (d !! k))
  | _ => inl AttributeError
  end.

(** [v.update({k: x})] *)
Definition dict_update1 (v : pyval) (k : string) (x : pyval) : result pyval :=
  match v with
  | VDict d => inr (VDict (<[k := x]> d))
  | _ => inl AttributeError
  end.

(** [v[i]] for a non-negative integer index, as [range] produces them.
    A string-keyed mapping has no integer key. *)
Definition getindex (v : pyval) (i : nat) : result pyval :=
  match v with
  | VList l => match l !! i with Some x => inr x | None => inl IndexError end
  | VStr s =>
      match String.get i s with
      | Some c => inr (VStr (String c EmptyString))
      | None => inl IndexError
      end
  | VDict _ => inl (KeyError (VInt (Z.of_nat i)))
  | _ => inl TypeError
  end.

Fixpoint string_repeat (s : string) (n : nat) : string :=
  match n with
  | O => EmptyString
  | S n' => String.append s (string_repeat s n')
  end.

Fixpoint list_repeat {A} (l : list A) (n : nat) : list A :=
  match n with
  | O => []
  | S n' => l ++ list_repeat l n'
  end.

(** [a * b]. Integers multiply; a sequence times an integer is repeated. *)
Definition py_mul (a b : pyval) : result pyval :=
  match a, b with
  | VFloat _, VFloat _ => inl NotModelled
  | VFloat _, _ => if as_int b is Some _ then inl NotModelled else inl TypeError
  | _, VFloat _ => if as_int a is Some _ then inl NotModelled else inl TypeError
  | VStr s, _ =>
      match as_int b with
      | Some n => inr (VStr (string_repeat s (Z.to_nat n)))
      | None => inl TypeError
      end
  | VList l, _ =>
      match as_int b with
      | Some n => inr (VList (list_repeat l (Z.to_nat n)))
      | None => inl TypeError
      end
  | _, VStr s =>
      match as_int a with
      | Some n => inr (VStr (string_repeat s (Z.to_nat n)))
      | None => inl TypeError
      end
  | _, VList l =>
      match as_int a with
      | Some n => inr (VList (list_repeat l (Z.to_nat n)))
      | None => inl TypeError
      end
  | _, _ =>
      match as_int a, as_int b with
      | Some x, Some y => inr (VInt (x * y))
      | _, _ => inl TypeError
      end
  end.

(** [x // d] for an integer [x]: Python floors, as [Z.div] does, and raises
    on a zero divisor. *)
Definition py_floordiv (x : Z) (d : pyval) : result Z :=
  match d with
  | VFloat _ => inl NotModelled
  | _ =>
      match as_int d with
      | Some y => if y =? 0 then inl ZeroDivisionError else inr (x / y)
      | None => inl TypeError
      end
  end.

(** [min(l)] over a list of integers. *)
Definition py_min (l : list Z) : result Z :=
  match l with
  | [] => inl ValueError
  | x :: r => inr (fold_left Z.min r x)
  end.

(** ** Paths: [os.path.dirname(p)] and [p.split("/")[-1]] *)

Definition is_slash (c : ascii) : bool := Ascii.eqb c "/"%char.

Fixpoint has_slash (s : string) : bool :=
  match s with
  | EmptyString => false
  | String c r => is_slash c || has_slash r
  end.

(** The part after the last slash: [p.split("/")[-1]]. *)
Fixpoint split_last (s : string) : string :=
  match s with
  | EmptyString => EmptyString
  | String c r =>
      if has_slash r then split_last r
      else if is_slash c then r else s
  end.

(** [p[:p.rfind("/") + 1]] *)
Fixpoint upto_last_slash (s : string) : string :=
  match s with
  | EmptyString => EmptyString
  | String c r =>
      if has_slash r then String c (upto_last_slash r)
      else if is_slash c then String c EmptyString else EmptyString
  end.

Fixpoint all_slashes (s : string) : bool :=
  match s with
  | EmptyString => true
  | String c r => is_slash c && all_slashes r
  end.

(** [s.rstrip("/")] *)
Fixpoint rstrip_slash (s : string) : string :=
  match s with
  | EmptyString => EmptyString
  | String c r => if all_slashes s then EmptyString else String c (rstrip_slash r)
  end.

(** [posixpath.dirname] *)
Definition dirname (p : string) : string :=
  let head := upto_last_slash p in
  if all_slashes head then head else rstrip_slash head.

(** ** Data frames *)

(** A row of a TSV file: its cells. *)
Abbreviation row := (list string).

(** A data frame: the rows, each under its index label. *)
Abbreviation dataframe := (list (nat * row)).

(** The frame [pd.read_csv] builds: a fresh range index over the rows. *)
Definition range_indexed (rows : list row) : dataframe :=
  zip (seq 0 (length rows)) rows.

(** [df.index] *)
Definition df_index (df : dataframe) : list nat := map fst df.

(** [df.take(locs)]: the rows at the given positions, in that order, each
    keeping its label. A position outside the frame raises. *)
Fixpoint df_take (df : dataframe) (locs : list nat) : result dataframe :=
  match locs with
  | [] => inr []
  | i :: r =>
      match df !! i with
      | None => inl IndexError
      | Some x =>
          match df_take df r with
          | inl e => inl e
          | inr xs => inr (x :: xs)
          end
      end
  end.

(** [df.drop(labels)]: the rows whose label is not listed; a listed label
    that the frame does not have raises. *)
Definition df_drop (df : dataframe) (labels : list nat) : result dataframe :=
  if forallb (fun i => existsb (Nat.eqb i) (df_index df)) labels
  then inr (filter (fun x => ¬ (x.1 ∈ labels)) df)
  else inl (KeyError (VList (map (fun i => VInt (Z.of_nat i)) labels))).

(** [df.reset_index(drop=True)] *)
Definition reset_index (df : dataframe) : dataframe :=
  range_indexed (map snd df).

(** Lines 88-92, given the positions [weak_df.sample] drew: the sampled
    rows and the rows left after dropping their labels, both reindexed. *)
Definition split_weak_df (weak_df : dataframe) (locs : list nat)
    : result (dataframe * dataframe) :=
  match df_take weak_df locs with
  | inl e => inl e
  | inr train_weak_df =>
      match df_drop weak_df (df_index train_weak_df) with
      | inl e => inl e
      | inr dropped => inr (reset_index train_weak_df, reset_index dropped)
      end
  end.

(** ** The objects the recipe constructs

    A constructor call of a collaborator is kept as a record of the
    arguments it was given. A keyword the call does not pass is [None]: the
    default then is the callee's. *)

(** [ManyHotEncoder(labels, audio_len=, frame_len=, frame_hop=,
    net_pooling=, fs=)] *)
Record ManyHotEncoder : Type := {
  enc_labels : list string;
  enc_audio_len : pyval;
  enc_frame_len : pyval;
  enc_frame_hop : pyval;
  enc_net_pooling : pyval;
  enc_fs : pyval
}.

(** The dataset views of [desed_task.dataio.datasets], and torch's
    [ConcatDataset]. *)
Inductive dataset : Type :=
| StronglyAnnotatedSet (audio_folder : pyval) (tsv_entries : dataframe)
    (encoder : ManyHotEncoder) (return_filename : option bool) (pad_to : pyval)
| WeakSet (audio_folder : pyval) (tsv_entries : dataframe)
    (encoder : ManyHotEncoder) (return_filename : option bool) (pad_to : pyval)
| UnlabelledSet (unlabeled_folder : pyval)
    (encoder : ManyHotEncoder) (return_filename : option bool) (pad_to : pyval)
| ConcatDataset (datasets : list dataset).

(** The [return_filename] keyword a view was constructed with. *)
Definition view_return_filename (d : dataset) : option bool :=
  match d with
  | StronglyAnnotatedSet _ _ _ rf _ => rf
  | WeakSet _ _ _ rf _ => rf
  | UnlabelledSet _ _ rf _ => rf
  | ConcatDataset _ => None
  end.

(** [torch.utils.data.RandomSampler(x)] *)
Record RandomSampler : Type := { data_source : dataset }.

(** [ConcatDatasetBatchSampler(samplers, batch_sizes)] *)
Record ConcatDatasetBatchSampler : Type := {
  cbs_samplers : list RandomSampler;
  cbs_batch_sizes : pyval
}.

(** [CRNN] called with the entries of a mapping as its keywords. *)
Record CRNN : Type := { crnn_kwargs : gmap string pyval }.

(** [torch.optim.Adam(model.parameters(), lr, betas=)] *)
Record Adam : Type := {
  adam_params_of : CRNN;
  adam_lr : pyval;
  adam_betas : pyval * pyval
}.

(** [ExponentialWarmup(optimizer, max_lr, rampup_length)] *)
Record ExponentialWarmup : Type := {
  ew_optimizer : Adam;
  ew_max_lr : pyval;
  ew_rampup_length : pyval
}.

(** The scheduler dictionary [{"scheduler": ..., "interval": ...}]. *)
Record scheduler_dict : Type := {
  sd_scheduler : ExponentialWarmup;
  sd_interval : string
}.

(** [SEDTask4_2021(config, encoder=, sed_student=, opt=, train_data=,
    valid_data=, test_data=, train_sampler=, scheduler=, fast_dev_run=)] *)
Record SEDTask4_2021 : Type := {
  task_hparams : pyval;
  task_encoder : ManyHotEncoder;
  task_sed_student : CRNN;
  task_opt : Adam;
  task_train_data : dataset;
  task_valid_data : dataset;
  task_test_data : dataset;
  task_train_sampler : ConcatDatasetBatchSampler;
  task_scheduler : scheduler_dict;
  task_fast_dev_run : bool
}.

(** [TensorBoardLogger(save_dir, name)] *)
Record TensorBoardLogger : Type := {
  tb_save_dir : string;
  tb_name : string
}.

Inductive callback : Type :=
| EarlyStopping (monitor : string) (patience : pyval) (verbose : bool)
| ModelCheckpoint (dirpath : string) (monitor : string) (save_top_k : Z).

(** [pl.Trainer(...)] with the keywords [single_run] passes. *)
Record Trainer : Type := {
  max_epochs : pyval;
  callbacks : list callback;
  gpus : pyval;
  distributed_backend : pyval;
  accumulate_grad_batches : pyval;
  logger : TensorBoardLogger;
  resume_from_checkpoint : option string;
  gradient_clip_val : pyval;
  check_val_every_n_epoch : pyval;
  num_sanity_val_steps : Z;
  log_every_n_steps : pyval;
  flush_logs_every_n_steps : pyval;
  limit_train_batches : pyval;
  limit_val_batches : pyval;
  limit_test_batches : pyval
}.

(** ** Effects *)

(** The calls that act on the outside world, in the order they are made. *)
Inductive event : Type :=
| EvResampleFolder (in_dir out_dir target_fs : pyval)
| EvGenerateDurations (audio_dir out_tsv : pyval)
| EvPrint (message : list pyval)
| EvTorchManualSeed (seed : pyval)
| EvNumpySeed (seed : pyval)
| EvRandomSeed (seed : pyval)
| EvSeedEverything (seed : pyval)
| EvFit (trainer : Trainer) (task : SEDTask4_2021)
| EvLoadStateDict (task : SEDTask4_2021) (state_dict : pyval)
| EvTest (trainer : Trainer) (task : SEDTask4_2021) (ckpt_path : string).

(** The collaborators, over a world [W] (file system, generator states)
    that the recipe never inspects itself. [ext_effect] is what a call does
    to the world; the other fields are what a call returns in a given world.
    Collaborators are taken to return; the one exception of theirs that
    the recipe models is the [ValueError] of [RandomSampler] on an empty
    data source. *)
Class Externals (W : Type) : Type := {
  (** [local.classes_dict.classes_labels], as an ordered mapping *)
  classes_labels : list (string * pyval);
  ext_effect : event -> W -> W;
  (** what [resample_folder(in_dir, out_dir, target_fs=)] returns *)
  resample_folder_returns : pyval -> pyval -> pyval -> W -> bool;
  os_path_exists : pyval -> W -> bool;
  yaml_safe_load : string -> W -> pyval;
  torch_load : string -> W -> pyval;
  (** the rows [pd.read_csv(path, sep="\t")] reads *)
  pd_read_csv : pyval -> W -> list row;
  (** the positions [DataFrame.sample(frac=, random_state=)] draws in a
      frame of the given number of rows *)
  df_sample : pyval -> pyval -> nat -> W -> list nat;
  (** [len(dataset)] *)
  dataset_len : dataset -> W -> Z;
  (** [logger.log_dir] *)
  tb_log_dir : TensorBoardLogger -> W -> string
}.

(** ** The monad of the recipe: a world, a trace, and exceptions *)

Record state (W : Type) : Type := mkState {
  world : W;
  trace : list event
}.
Arguments mkState {W} _ _.
Arguments world {W} _.
Arguments trace {W} _.

Definition M (W A : Type) : Type := state W -> result A * state W.

Definition ret {W A} (a : A) : M W A := fun s => (inr a, s).

Definition bind {W A B} (m : M W A) (k : A -> M W B) : M W B :=
  fun s =>
    match m s with
    | (inl e, s') => (inl e, s')
    | (inr a, s') => k a s'
    end.

(** An expression of the recipe that may raise. *)
Definition lift {W A} (r : result A) : M W A := fun s => (r, s).

Definition raise {W A} (e : exn) : M W A := lift (inl e).

(** A call that returns what the collaborator answers in the current world. *)
Definition query {W A} (f : W -> A) : M W A := fun s => (inr (f (world s)), s).

(** A call made for its effect. *)
Definition emit {W} `{Externals W} (e : event) : M W unit :=
  fun s => (inr tt, mkState (ext_effect e (world s)) (trace s ++ [e])).

Declare Scope py_scope.
Delimit Scope py_scope with py.
Notation "x <- m ;; k" := (bind m (fun x => k))
  (at level 100, m at next level, right associativity) : py_scope.
Notation "m ;;; k" := (bind m (fun _ => k))
  (at level 100, right associativity) : py_scope.
Local Open Scope py_scope.

(** A [for] loop whose body updates the loop-carried variables [acc]. *)
Fixpoint for_each {W A X} (xs : list X) (body : X -> A -> M W A) (acc : A) : M W A :=
  match xs with
  | [] => ret acc
  | x :: r => acc' <- body x acc ;; for_each r body acc'
  end.

(** A list comprehension [[f(x) for x in xs]]. *)
Fixpoint comprehension {W A X} (xs : list X) (f : X -> M W A) : M W (list A) :=
  match xs with
  | [] => ret []
  | x :: r => y <- f x ;; ys <- comprehension r f ;; ret (y :: ys)
  end.

(** ** The recipe *)

(** The local variables of [single_run] once the trainer is built. *)
Record Locals : Type := {
  l_config : pyval;
  l_encoder : ManyHotEncoder;
  l_synth_set : dataset;
  l_weak_df : dataframe;
  l_train_weak_df : dataframe;
  l_valid_weak_df : dataframe;
  l_weak_set : dataset;
  l_unlabeled_set : dataset;
  l_synth_val : dataset;
  l_weak_val : dataset;
  l_devtest_dataset : dataset;
  l_tot_train_data : list dataset;
  l_train_dataset : dataset;
  l_batch_sampler : ConcatDatasetBatchSampler;
  l_valid_dataset : dataset;
  l_test_dataset : dataset;
  l_epoch_len : Z;
  l_sed_student : CRNN;
  l_opt : Adam;
  l_exp_steps : pyval;
  l_exp_scheduler : scheduler_dict;
  l_desed_training : SEDTask4_2021;
  l_logger : TensorBoardLogger;
  l_n_epochs : pyval;
  l_trainer : Trainer
}.

(** The command line, as [argparse] returns it. *)
Record Args : Type := {
  conf_file : string;
  log_dir : string;
  arg_resume_from_checkpoint : option string;
  test_from_checkpoint : option string;
  arg_gpus : string;
  arg_fast_dev_run : bool
}.

Section Recipe.
Context {W : Type} `{Externals W}.

(** [config[a][b]] *)
Definition getitem2 (config : pyval) (a b : string) : M W pyval :=
  section <- lift (getitem config a) ;;
  lift (getitem section b).

Definition dsets : list string :=
  ["synth_folder"; "synth_val_folder"; "weak_folder"; "unlabeled_folder";
   "test_folder"].

(** [resample_data_generate_durations(config_data)]. The variable
    [computed] is unbound until the first loop assigns it. *)
Definition resample_data_generate_durations (config_data : pyval) : M W unit :=
  computed <- for_each dsets (fun dset (_ : option bool) =>
    in_dir <- lift (getitem config_data (dset +:+ "_44k")) ;;
    out_dir <- lift (getitem config_data dset) ;;
    target_fs <- lift (getitem config_data "fs") ;;
    r <- query (resample_folder_returns in_dir out_dir target_fs) ;;
    emit (EvResampleFolder in_dir out_dir target_fs) ;;;
    ret (Some r)) None ;;
  for_each ["synth_val"; "test"] (fun base_set (_ : unit) =>
    dur <- lift (getitem config_data (base_set +:+ "_dur")) ;;
    found <- query (os_path_exists dur) ;;
    regenerate <- (if negb found then ret true
                   else match computed with
                        | Some c => ret c
                        | None => raise NameError
                        end) ;;
    if (regenerate : bool) then
      audio_dir <- lift (getitem config_data (base_set +:+ "_folder")) ;;
      out_tsv <- lift (getitem config_data (base_set +:+ "_dur")) ;;
      emit (EvGenerateDurations audio_dir out_tsv)
    else ret tt) tt.

(** [pd.read_csv(path, sep="\t")] *)
Definition read_csv (path : pyval) : M W dataframe :=
  rows <- query (pd_read_csv path) ;;
  ret (range_indexed rows).

(** The element expression of the comprehension of lines 144-153:
    [len(tot_train_data[indx]) // (batch_size[indx] * accumulate_batches)] *)
Definition subset_batches (tot_train_data : list dataset) (config : pyval)
    (indx : nat) : M W Z :=
  n <- match tot_train_data !! indx with
       | Some d => query (dataset_len d)
       | None => raise IndexError
       end ;;
  batch_sizes <- getitem2 config "training" "batch_size" ;;
  batch_size <- lift (getindex batch_sizes indx) ;;
  accumulate_batches <- getitem2 config "training" "accumulate_batches" ;;
  d <- lift (py_mul batch_size accumulate_batches) ;;
  lift (py_floordiv n d).

(** Lines 144-153: the number of combined batches of an epoch. *)
Definition compute_epoch_len (tot_train_data : list dataset) (config : pyval) : M W Z :=
  quotients <- comprehension (seq 0 (length tot_train_data))
                 (subset_batches tot_train_data config) ;;
  lift (py_min quotients).

(** [torch.utils.data.RandomSampler(x)] of line 136. The constructor reads
    [len(x)] as its number of samples and raises [ValueError] unless that
    is a positive integer. *)
Definition random_sampler (x : dataset) : M W RandomSampler :=
  num_samples <- query (dataset_len x) ;;
  if num_samples <=? 0 then raise ValueError
  else ret {| data_source := x |}.

(** [single_run] up to and including the construction of the trainer
    (lines 67-221); the result is the frame of local variables. *)
Definition single_run_locals (config : pyval) (log_dir : string) (gpus : pyval)
    (checkpoint_resume : option string) (fast_dev_run : bool) : M W Locals :=
  config <- lift (dict_update1 config "log_dir" (VStr log_dir)) ;;
  (* data prep *)
  audio_max_len <- getitem2 config "data" "audio_max_len" ;;
  n_filters <- getitem2 config "feats" "n_filters" ;;
  hop_length <- getitem2 config "feats" "hop_length" ;;
  net_subsample <- getitem2 config "data" "net_subsample" ;;
  fs <- getitem2 config "data" "fs" ;;
  let encoder :=
    {| enc_labels := map fst classes_labels;
       enc_audio_len := audio_max_len;
       enc_frame_len := n_filters;
       enc_frame_hop := hop_length;
       enc_net_pooling := net_subsample;
       enc_fs := fs |} in
  synth_tsv <- getitem2 config "data" "synth_tsv" ;;
  synth_df <- read_csv synth_tsv ;;
  synth_folder <- getitem2 config "data" "synth_folder" ;;
  pad_to <- getitem2 config "data" "audio_max_len" ;;
  let synth_set := StronglyAnnotatedSet synth_folder synth_df encoder None pad_to in
  weak_tsv <- getitem2 config "data" "weak_tsv" ;;
  weak_df <- read_csv weak_tsv ;;
  weak_split <- getitem2 config "training" "weak_split" ;;
  seed <- getitem2 config "training" "seed" ;;
  locs <- query (df_sample weak_split seed (length weak_df)) ;;
  split <- lift (split_weak_df weak_df locs) ;;
  let train_weak_df := fst split in
  let valid_weak_df := snd split in
  weak_folder <- getitem2 config "data" "weak_folder" ;;
  pad_to <- getitem2 config "data" "audio_max_len" ;;
  let weak_set := WeakSet weak_folder train_weak_df encoder None pad_to in
  unlabeled_folder <- getitem2 config "data" "unlabeled_folder" ;;
  pad_to <- getitem2 config "data" "audio_max_len" ;;
  let unlabeled_set := UnlabelledSet unlabeled_folder encoder None pad_to in
  synth_val_tsv <- getitem2 config "data" "synth_val_tsv" ;;
  synth_df_val <- read_csv synth_val_tsv ;;
  synth_val_folder <- getitem2 config "data" "synth_val_folder" ;;
  pad_to <- getitem2 config "data" "audio_max_len" ;;
  let synth_val :=
    StronglyAnnotatedSet synth_val_folder synth_df_val encoder (Some true) pad_to in
  weak_folder <- getitem2 config "data" "weak_folder" ;;
  pad_to <- getitem2 config "data" "audio_max_len" ;;
  let weak_val := WeakSet weak_folder valid_weak_df encoder (Some true) pad_to in
  test_tsv <- getitem2 config "data" "test_tsv" ;;
  devtest_df <- read_csv test_tsv ;;
  test_folder <- getitem2 config "data" "test_folder" ;;
  pad_to <- getitem2 config "data" "audio_max_len" ;;
  let devtest_dataset :=
    StronglyAnnotatedSet test_folder devtest_df encoder (Some true) pad_to in
  let tot_train_data := [synth_set; weak_set; unlabeled_set] in
  let train_dataset := ConcatDataset tot_train_data in
  batch_sizes <- getitem2 config "training" "batch_size" ;;
  samplers <- comprehension tot_train_data random_sampler ;;
  let batch_sampler :=
    {| cbs_samplers := samplers; cbs_batch_sizes := batch_sizes |} in
  let valid_dataset := ConcatDataset [synth_val; weak_val; devtest_dataset] in
  let test_dataset := devtest_dataset in
  epoch_len <- compute_epoch_len tot_train_data config ;;
  (* models and optimizers *)
  net <- lift (getitem config "net") ;;
  sed_student <- match net with
                 | VDict kwargs => ret {| crnn_kwargs := kwargs |}
                 | _ => raise TypeError
                 end ;;
  let opt :=
    {| adam_params_of := sed_student;
       adam_lr := VFloat (1 # 1000);
       adam_betas := (VFloat (9 # 10), VFloat (999 # 1000)) |} in
  n_epochs_warmup <- getitem2 config "training" "n_epochs_warmup" ;;
  exp_steps <- lift (py_mul n_epochs_warmup (VInt epoch_len)) ;;
  lr <- getitem2 config "opt" "lr" ;;
  let exp_scheduler :=
    {| sd_scheduler :=
         {| ew_optimizer := opt; ew_max_lr := lr; ew_rampup_length := exp_steps |};
       sd_interval := "step" |} in
  let desed_training :=
    {| task_hparams := config;
       task_encoder := encoder;
       task_sed_student := sed_student;
       task_opt := opt;
       task_train_data := train_dataset;
       task_valid_data := valid_dataset;
       task_test_data := test_dataset;
       task_train_sampler := batch_sampler;
       task_scheduler := exp_scheduler;
       task_fast_dev_run := fast_dev_run |} in
  log_dir1 <- lift (getitem config "log_dir") ;;
  save_dir <- match log_dir1 with
              | VStr p => ret (dirname p)
              | _ => raise TypeError
              end ;;
  log_dir2 <- lift (getitem config "log_dir") ;;
  name <- match log_dir2 with
          | VStr p => ret (split_last p)
          | _ => raise AttributeError
          end ;;
  let logger := {| tb_save_dir := save_dir; tb_name := name |} in
  experiment_dir <- query (tb_log_dir logger) ;;
  emit (EvPrint [VStr "experiment dir: "; VStr experiment_dir]) ;;;
  n_epochs <- (if negb fast_dev_run
               then getitem2 config "training" "n_epochs"
               else ret (VInt 3)) ;;
  (* Not using the fast_dev_run of Trainer *)
  let flush_logs_every_n_steps := if fast_dev_run then VInt 1 else VInt 100 in
  let log_every_n_steps := if fast_dev_run then VInt 1 else VInt 40 in
  let limit_train_batches := if fast_dev_run then VInt 2 else VFloat 1 in
  let limit_val_batches := if fast_dev_run then VInt 2 else VFloat 1 in
  let limit_test_batches := if fast_dev_run then VInt 2 else VFloat 1 in
  early_stop_patience <- getitem2 config "training" "early_stop_patience" ;;
  checkpoint_dir <- query (tb_log_dir logger) ;;
  training <- lift (getitem config "training") ;;
  backend <- lift (dict_get training "backend") ;;
  accumulate_batches <- getitem2 config "training" "accumulate_batches" ;;
  gradient_clip <- getitem2 config "training" "gradient_clip" ;;
  validation_interval <- getitem2 config "training" "validation_interval" ;;
  let trainer :=
    {| max_epochs := n_epochs;
       callbacks :=
         [EarlyStopping "val/obj_metric" early_stop_patience true;
          ModelCheckpoint checkpoint_dir "val/obj_metric" 1];
       gpus := gpus;
       distributed_backend := backend;
       accumulate_grad_batches := accumulate_batches;
       logger := logger;
       resume_from_checkpoint := checkpoint_resume;
       gradient_clip_val := gradient_clip;
       check_val_every_n_epoch := validation_interval;
       num_sanity_val_steps := 0;
       log_every_n_steps := log_every_n_steps;
       flush_logs_every_n_steps := flush_logs_every_n_steps;
       limit_train_batches := limit_train_batches;
       limit_val_batches := limit_val_batches;
       limit_test_batches := limit_test_batches |} in
  ret {| l_config := config;
         l_encoder := encoder;
         l_synth_set := synth_set;
         l_weak_df := weak_df;
         l_train_weak_df := train_weak_df;
         l_valid_weak_df := valid_weak_df;
         l_weak_set := weak_set;
         l_unlabeled_set := unlabeled_set;
         l_synth_val := synth_val;
         l_weak_val := weak_val;
         l_devtest_dataset := devtest_dataset;
         l_tot_train_data := tot_train_data;
         l_train_dataset := train_dataset;
         l_batch_sampler := batch_sampler;
         l_valid_dataset := valid_dataset;
         l_test_dataset := test_dataset;
         l_epoch_len := epoch_len;
         l_sed_student := sed_student;
         l_opt := opt;
         l_exp_steps := exp_steps;
         l_exp_scheduler := exp_scheduler;
         l_desed_training := desed_training;
         l_logger := logger;
         l_n_epochs := n_epochs;
         l_trainer := trainer |}.

(** [single_run(config, log_dir, gpus, checkpoint_resume, test_state_dict,
    fast_dev_run)] *)
Definition single_run (config : pyval) (log_dir : string) (gpus : pyval)
    (checkpoint_resume : option string) (test_state_dict : pyval)
    (fast_dev_run : bool) : M W unit :=
  L <- single_run_locals config log_dir gpus checkpoint_resume fast_dev_run ;;
  (if is_None test_state_dict
   then emit (EvFit (l_trainer L) (l_desed_training L))
   else emit (EvLoadStateDict (l_desed_training L) test_state_dict)) ;;;
  emit (EvTest (l_trainer L) (l_desed_training L) "best").

(** Lines 241-255 of the entry point: the configuration and the state
    dictionary handed to [single_run]. *)
Definition main_configs (args : Args) : M W (pyval * pyval) :=
  configs <- query (yaml_safe_load (conf_file args)) ;;
  match test_from_checkpoint args with
  | Some path =>
      checkpoint <- query (torch_load path) ;;
      configs_ckpt <- lift (getitem checkpoint "hyper_parameters") ;;
      data <- lift (getitem configs "data") ;;
      configs_ckpt <- lift (setitem configs_ckpt "data" data) ;;
      let configs := configs_ckpt in
      epoch <- lift (getitem checkpoint "epoch") ;;
      emit (EvPrint [VStr "loaded model: "; VStr path; VStr " \nat epoch: "; epoch]) ;;;
      test_model_state_dict <- lift (getitem checkpoint "state_dict") ;;
      ret (configs, test_model_state_dict)
  | None => ret (configs, VNone)
  end.

(** Lines 257-262: seeding of the global generators. *)
Definition main_seed (configs : pyval) : M W unit :=
  seed <- getitem2 configs "training" "seed" ;;
  if truthy seed then
    emit (EvTorchManualSeed seed) ;;;
    emit (EvNumpySeed seed) ;;;
    emit (EvRandomSeed seed) ;;;
    emit (EvSeedEverything seed)
  else ret tt.

(** The [__main__] block, after argument parsing. *)
Definition main (args : Args) : M W unit :=
  loaded <- main_configs args ;;
  let configs := fst loaded in
  let test_model_state_dict := snd loaded in
  main_seed configs ;;;
  data <- lift (getitem configs "data") ;;
  resample_data_generate_durations data ;;;
  single_run configs (log_dir args) (VStr (arg_gpus args))
    (arg_resume_from_checkpoint args) test_model_state_dict
    (arg_fast_dev_run args).

End Recipe.

(** ** The specification's epoch length *)

(** [floor(size / (batch_size * accumulate_batches))], over the rationals. *)
Definition spec_batches_per_epoch (accumulate : Z) (size batch_size : Z) : Z :=
  Qfloor (inject_Z size / inject_Z (batch_size * accumulate)).

(** The least element of a non-empty list. *)
Definition spec_minimum (l : list Z) : Z :=
  match l with
  | [] => 0
  | x :: r => fold_right Z.min x r
  end.

(** The minimum over the subsets of their batches per epoch. *)
Definition spec_epoch_len (sizes batch_sizes : list Z) (accumulate : Z) : Z :=
  spec_minimum (zip_with (spec_batches_per_epoch accumulate) sizes batch_sizes).

(** Computations that only read: whatever they return, the state is the
    one they started in. *)
Definition stateless {W A} (m : M W A) : Prop :=
  forall s r s', m s = (r, s') -> s' = s.

(** The six dataset views [single_run] constructs, in construction order. *)
Definition views (L : Locals) : list dataset :=
  [l_synth_set L; l_weak_set L; l_unlabeled_set L;
   l_synth_val L; l_weak_val L; l_devtest_dataset L].

(** Whether a view was constructed with [return_filename=True]. *)
Definition returns_filename (d : dataset) : bool :=
  match view_return_filename d with
  | Some true => true
  | _ => false
  end.

(** Every row of a frame sits under the label it has in [rows]. *)
Definition labelled_by (rows : list row) (df : dataframe) : Prop :=
  Forall (fun x => rows !! x.1 = Some x.2) df.

(** A run returned, and what it returned satisfies [P]. *)
Definition returns_with {W A} (r : result A * state W) (P : A -> bool) : bool :=
  match fst r with
  | inr a => P a
  | inl _ => false
  end.

(** The kind of a call, without its arguments. *)
Inductive call : Type :=
| CallResample | CallDurations | CallPrint | CallSeed | CallFit
| CallLoadStateDict | CallTest.

Definition call_of (e : event) : call :=
  match e with
  | EvResampleFolder _ _ _ => CallResample
  | EvGenerateDurations _ _ => CallDurations
  | EvPrint _ => CallPrint
  | EvTorchManualSeed _ | EvNumpySeed _ | EvRandomSeed _ | EvSeedEverything _ =>
      CallSeed
  | EvFit _ _ => CallFit
  | EvLoadStateDict _ _ => CallLoadStateDict
  | EvTest _ _ _ => CallTest
  end.

(** Computations whose calls with an effect all satisfy [allowed]. *)
Definition emits_only {W A} (m : M W A) (allowed : event -> Prop) : Prop :=
  forall s r s', m s = (r, s') ->
    exists new, trace s' = trace s ++ new /\ Forall allowed new.

Definition is_print (e : event) : Prop :=
  match e with EvPrint _ => True | _ => False end.

(** ** What pandas promises of [DataFrame.sample]

    [df.sample(frac=f, random_state=seed)] draws, without replacement,
    [round(f * len(df))] positions of the frame; [round] is Python's, which
    rounds a tie to the even neighbour. *)

Definition py_round (q : Q) : Z :=
  let f := Qfloor q in
  match Qcompare (q - inject_Z f) (1 # 2) with
  | Lt => f
  | Gt => f + 1
  | Eq => if Z.even f then f else f + 1
  end.

(** The count when the product is exact, as it is for the fractions 0 and
    1; in general the product is a binary64 one, see [pandas_sample_size]. *)
Definition sample_size (frac : Q) (n : nat) : nat :=
  Z.to_nat (py_round (frac * inject_Z (Z.of_nat n))).

Definition sample_contract (frac : Q) (n : nat) (locs : list nat) : Prop :=
  NoDup locs /\ Forall (fun i => (i < n)%nat) locs /\ length locs = sample_size frac n.

(** *** The count in binary64 arithmetic

    [frac] is a Python float and [frac * len(df)] a float product: pandas
    rounds the binary64 number nearest to the product of the binary64
    numbers nearest to its operands. *)

(** [2 ** e] *)
Definition pow2 (e : Z) : Q :=
  if 0 <=? e then inject_Z (2 ^ e) else 1 # Z.to_pos (2 ^ (- e)).

(** The binary64 number nearest to a positive rational, a tie going to the
    even significand; [None] beyond the largest finite one. *)
Definition to_double_pos (q : Q) : option Q :=
  let e0 := Z.log2 (Qnum q) - Z.log2 (Zpos (Qden q)) in
  let e := if Qle_bool (pow2 e0) q then e0 else e0 - 1 in
  let ulp := pow2 (Z.max (e - 52) (- 1074)) in
  let r := Qred (inject_Z (py_round (q / ulp)) * ulp) in
  if Qle_bool (pow2 1024) r then None else Some r.

(** [float(q)] *)
Definition to_double (q : Q) : option Q :=
  match Qnum q with
  | 0 => Some 0%Q
  | Zpos _ => to_double_pos q
  | Zneg _ => option_map Qopp (to_double_pos (- q))
  end.

(** [round(frac * n)] for a float [frac] and an integer [n], as
    [DataFrame.sample] computes the number of rows to draw. *)
Definition pandas_sample_size (frac : Q) (n : nat) : option nat :=
  match to_double frac, to_double (inject_Z (Z.of_nat n)) with
  | Some f, Some k =>
      match to_double (f * k) with
      | Some p => Some (Z.to_nat (py_round p))
      | None => None
      end
  | _, _ => None
  end.

(** What [df.sample(frac=f, random_state=seed)] returns for a fraction
    between 0 and 1: [round(f * len(df))] distinct positions of the frame. *)
Definition pandas_sample_contract (frac : Q) (n : nat) (locs : list nat) : Prop :=
  NoDup locs /\ Forall (fun i => (i < n)%nat) locs /\
  pandas_sample_size frac n = Some (length locs).

(** With an integer [random_state], [DataFrame.sample] seeds a generator
    of its own: what it draws depends on the fraction, the seed and the
    number of rows, and on nothing else in the world. *)
Class SeededSampling (W : Type) `{Externals W} : Prop :=
  df_sample_seeded : forall frac (seed : Z) n (w1 w2 : W),
    df_sample frac (VInt seed) n w1 = df_sample frac (VInt seed) n w2.

(** ** A laboratory world

    A small concrete world in which the recipe can be run: a file system
    that records which paths exist, the TSV files and checkpoints it holds,
    and the number of clips under each audio folder. *)
Module Lab.

Record world : Type := mkWorld {
  files : gset string;
  tsv_files : gmap string (list row);
  folder_clips : gmap string Z;
  yaml_files : gmap string pyval;
  checkpoints : gmap string pyval
}.

Definition add_file (p : pyval) (w : world) : world :=
  match p with
  | VStr path =>
      mkWorld ({[path]} ∪ files w) (tsv_files w) (folder_clips w)
        (yaml_files w) (checkpoints w)
  | _ => w
  end.

Definition effect (e : event) (w : world) : world :=
  match e with
  | EvResampleFolder _ out_dir _ => add_file out_dir w
  | EvGenerateDurations _ out_tsv => add_file out_tsv w
  | _ => w
  end.

Definition exists_ (p : pyval) (w : world) : bool :=
  match p with
  | VStr path => bool_decide (path ∈ files w)
  | _ => false
  end.

(** A folder is resampled when its target does not exist yet. *)
Definition resample_returns (in_dir out_dir target_fs : pyval) (w : world) : bool :=
  negb (exists_ out_dir w).

Definition read_rows (p : pyval) (w : world) : list row :=
  match p with
  | VStr path => default [] (tsv_files w !! path)
  | _ => []
  end.

(** A sampler that honours the contract: the first [round(frac * n)]
    positions of the range rotated by the seed, whatever the world. *)
Definition sample (frac random_state : pyval) (n : nat) (w : world) : list nat :=
  match frac, random_state with
  | VFloat f, VInt seed => take (sample_size f n) (rotate (Z.to_nat seed) (seq 0 n))
  | _, _ => []
  end.

Fixpoint len (d : dataset) (w : world) : Z :=
  match d with
  | StronglyAnnotatedSet _ df _ _ _ => Z.of_nat (length df)
  | WeakSet _ df _ _ _ => Z.of_nat (length df)
  | UnlabelledSet (VStr folder) _ _ _ => default 0 (folder_clips w !! folder)
  | UnlabelledSet _ _ _ _ => 0
  | ConcatDataset ds => fold_right (fun x acc => len x w + acc) 0 ds
  end.

#[global] Instance lab_externals : Externals world := {|
  classes_labels :=
    [("Alarm_bell_ringing", VInt 0); ("Blender", VInt 1); ("Cat", VInt 2);
     ("Dishes", VInt 3); ("Dog", VInt 4);
     ("Electric_shaver_toothbrush", VInt 5); ("Frying", VInt 6);
     ("Running_water", VInt 7); ("Speech", VInt 8);
     ("Vacuum_cleaner", VInt 9)];
  ext_effect := effect;
  resample_folder_returns := resample_returns;
  os_path_exists := exists_;
  yaml_safe_load := fun path w => default VNone (yaml_files w !! path);
  torch_load := fun path w => default VNone (checkpoints w !! path);
  pd_read_csv := read_rows;
  df_sample := sample;
  dataset_len := len;
  tb_log_dir := fun l w => tb_save_dir l +:+ "/" +:+ tb_name l +:+ "/version_0"
|}.

#[global] Instance lab_seeded : SeededSampling world :=
  fun _ _ _ _ _ => eq_refl.

Definition clip_rows (prefix : string) (n : nat) : list row :=
  map (fun i => [prefix +:+ pretty i +:+ ".wav"; "Speech"]) (seq 0 n).

Definition data_section : pyval :=
  VDict (list_to_map
    [("synth_folder", VStr "data/synth/16k");
     ("synth_folder_44k", VStr "data/synth/44k");
     ("synth_tsv", VStr "data/synth.tsv");
     ("weak_folder", VStr "data/weak/16k");
     ("weak_folder_44k", VStr "data/weak/44k");
     ("weak_tsv", VStr "data/weak.tsv");
     ("unlabeled_folder", VStr "data/unlabel/16k");
     ("unlabeled_folder_44k", VStr "data/unlabel/44k");
     ("synth_val_folder", VStr "data/synth_val/16k");
     ("synth_val_folder_44k", VStr "data/synth_val/44k");
     ("synth_val_tsv", VStr "data/synth_val.tsv");
     ("synth_val_dur", VStr "data/synth_val_dur.tsv");
     ("test_folder", VStr "data/test/16k");
     ("test_folder_44k", VStr "data/test/44k");
     ("test_tsv", VStr "data/test.tsv");
     ("test_dur", VStr "data/test_dur.tsv");
     ("audio_max_len", VInt 10);
     ("fs", VInt 16000);
     ("net_subsample", VInt 4)]).

Definition training_section (accumulate seed : Z) : pyval :=
  VDict (list_to_map
    [("batch_size", VList [VInt 12; VInt 12; VInt 24]);
     ("n_epochs", VInt 200);
     ("n_epochs_warmup", VInt 50);
     ("early_stop_patience", VInt 200);
     ("accumulate_batches", VInt accumulate);
     ("gradient_clip", VFloat 0);
     ("validation_interval", VInt 1);
     ("weak_split", VFloat (9 # 10));
     ("seed", VInt seed);
     ("backend", VStr "dp")]).

Definition feats_section : pyval :=
  VDict (list_to_map
    [("n_mels", VInt 128); ("n_filters", VInt 2048);
     ("hop_length", VInt 256); ("n_window", VInt 2048);
     ("sample_rate", VInt 16000)]).

Definition net_section : pyval :=
  VDict (list_to_map
    [("dropout", VFloat (1 # 2)); ("rnn_layers", VInt 2);
     ("n_in_channel", VInt 1); ("nclass", VInt 10);
     ("attention", VBool true); ("n_RNN_cell", VInt 128)]).

Definition opt_section : pyval :=
  VDict (list_to_map [("lr", VFloat (1 # 1000))]).

(** A configuration in the shape of [confs/sed.yaml]. *)
Definition config_with (accumulate seed : Z) : pyval :=
  VDict (list_to_map
    [("data", data_section);
     ("training", training_section accumulate seed);
     ("feats", feats_section);
     ("net", net_section);
     ("opt", opt_section)]).

Definition config : pyval := config_with 1 42.

(** What a checkpoint of an earlier run stores: another [data] section
    and its own network. *)
Definition earlier_net : pyval :=
  VDict (list_to_map [("nclass", VInt 10); ("rnn_layers", VInt 1)]).

Definition hyper_parameters : gmap string pyval :=
  list_to_map
    [("data", VDict (list_to_map [("fs", VInt 44100)]));
     ("training", training_section 2 7);
     ("feats", feats_section);
     ("net", earlier_net);
     ("opt", opt_section);
     ("log_dir", VStr "./exp/earlier")].

Definition state_dict : pyval :=
  VDict (list_to_map [("cnn.weight", VList [VInt 1])]).

Definition checkpoint : pyval :=
  VDict (list_to_map
    [("hyper_parameters", VDict hyper_parameters);
     ("epoch", VInt 17);
     ("state_dict", state_dict)]).

(** Every folder is resampled and both duration files exist, but the
    synthetic validation folder is still to be resampled. *)
Definition disk : gset string :=
  {["data/synth/16k"; "data/weak/16k"; "data/unlabel/16k"; "data/test/16k";
    "data/synth_val_dur.tsv"; "data/test_dur.tsv"]}.

Definition w0 : world :=
  mkWorld disk
    (list_to_map
      [("data/synth.tsv", clip_rows "synth_" 120);
       ("data/weak.tsv", clip_rows "weak_" 100);
       ("data/synth_val.tsv", clip_rows "val_" 30);
       ("data/test.tsv", clip_rows "test_" 40)])
    (list_to_map [("data/unlabel/16k", 240)])
    (list_to_map
      [("./confs/sed.yaml", config);
       ("./confs/sed_acc8.yaml", config_with 8 42);
       ("./confs/sed_seed0.yaml", config_with 1 0)])
    (list_to_map [("exp/earlier/best.ckpt", checkpoint)]).

Definition st0 : state world := mkState w0 [].

Definition args : Args :=
  {| conf_file := "./confs/sed.yaml";
     log_dir := "./exp/2021_baseline";
     arg_resume_from_checkpoint := None;
     test_from_checkpoint := None;
     arg_gpus := "0";
     arg_fast_dev_run := false |}.

Definition test_args : Args :=
  {| conf_file := "./confs/sed.yaml";
     log_dir := "./exp/2021_baseline";
     arg_resume_from_checkpoint := None;
     test_from_checkpoint := Some "exp/earlier/best.ckpt";
     arg_gpus := "0";
     arg_fast_dev_run := false |}.

End Lab.

(** The encoder a view was constructed with. *)
Definition view_encoder (d : dataset) : option ManyHotEncoder :=
  match d with
  | StronglyAnnotatedSet _ _ e _ _ => Some e
  | WeakSet _ _ e _ _ => Some e
  | UnlabelledSet _ e _ _ => Some e
  | ConcatDataset _ => None
  end.

(** The [pad_to] keyword a view was constructed with. *)
Definition view_pad_to (d : dataset) : option pyval :=
  match d with
  | StronglyAnnotatedSet _ _ _ _ p => Some p
  | WeakSet _ _ _ _ p => Some p
  | UnlabelledSet _ _ _ p => Some p
  | ConcatDataset _ => None
  end.

(** The calls of the entry point that come before the trainer is used. *)
Definition is_preparation (e : event) : Prop :=
  match e with
  | EvFit _ _ | EvLoadStateDict _ _ | EvTest _ _ _ => False
  | _ => True
  end.

(** Resampling calls and regenerations of a duration file. *)
Definition is_preprocessing (e : event) : Prop :=
  match e with
  | EvResampleFolder _ _ _ | EvGenerateDurations _ _ => True
  | _ => False
  end.

Definition is_dict (v : pyval) : bool :=
  match v with VDict _ => true | _ => false end.

(** Further laboratory inputs. *)
Module LabMore.

(** A training section with two batch sizes for the three subsets. *)
Definition short_training : pyval :=
  VDict (list_to_map
    [("batch_size", VList [VInt 12; VInt 12]);
     ("accumulate_batches", VInt 1)]).

Definition short_config : pyval :=
  VDict (list_to_map [("training", short_training)]).

(** The laboratory [data] section without the duration file of the test
    set. *)
Definition data_without_test_dur : pyval :=
  match Lab.data_section with
  | VDict entries => VDict (delete "test_dur" entries)
  | other => other
  end.

(** Arguments that test from a path under which the laboratory world
    holds no checkpoint: [torch_load] answers [None] there. *)
Definition missing_checkpoint_args : Args :=
  {| conf_file := "./confs/sed.yaml";
     log_dir := "./exp/2021_baseline";
     arg_resume_from_checkpoint := None;
     test_from_checkpoint := Some "exp/none.ckpt";
     arg_gpus := "0";
     arg_fast_dev_run := false |}.

(** Arguments that train from the configuration whose seed is [0]. *)
Definition seed0_args : Args :=
  {| conf_file := "./confs/sed_seed0.yaml";
     log_dir := "./exp/2021_baseline";
     arg_resume_from_checkpoint := None;
     test_from_checkpoint := None;
     arg_gpus := "0";
     arg_fast_dev_run := false |}.

End LabMore.

(** Seeding calls. *)
Definition is_seed (e : event) : Prop :=
  match e with
  | EvTorchManualSeed _ | EvNumpySeed _ | EvRandomSeed _ | EvSeedEverything _ =>
      True
  | _ => False
  end.

(** ** The settings the set-up reads

    The values [single_run] looks up in a configuration that has every key
    the set-up reads, under the names the keys have, with integer batch
    sizes, accumulation factor and warm-up. *)
Record Settings : Type := {
  set_audio_max_len : pyval;
  set_n_filters : pyval;
  set_hop_length : pyval;
  set_net_subsample : pyval;
  set_fs : pyval;
  set_synth_tsv : pyval;
  set_synth_folder : pyval;
  set_weak_tsv : pyval;
  set_weak_split : pyval;
  set_seed : pyval;
  set_weak_folder : pyval;
  set_unlabeled_folder : pyval;
  set_batch_size_synth : Z;
  set_batch_size_weak : Z;
  set_batch_size_unlabeled : Z;
  set_accumulate_batches : Z;
  set_n_epochs_warmup : Z
}.

Definition has_key (v : pyval) (k : string) : Prop :=
  exists x, getitem v k = inr x.

(** [config] holds the settings [S] and every other key lines 67-221 look
    up; [n_epochs] is looked up only outside the fast development mode. *)
Definition configured (config : pyval) (fast_dev_run : bool) (S : Settings) : Prop :=
  exists data feats training kwargs opt_section bs,
    getitem config "data" = inr data /\
    getitem config "feats" = inr feats /\
    getitem config "training" = inr training /\
    getitem config "net" = inr (VDict kwargs) /\
    getitem config "opt" = inr opt_section /\
    getitem data "audio_max_len" = inr (set_audio_max_len S) /\
    getitem feats "n_filters" = inr (set_n_filters S) /\
    getitem feats "hop_length" = inr (set_hop_length S) /\
    getitem data "net_subsample" = inr (set_net_subsample S) /\
    getitem data "fs" = inr (set_fs S) /\
    getitem data "synth_tsv" = inr (set_synth_tsv S) /\
    getitem data "synth_folder" = inr (set_synth_folder S) /\
    getitem data "weak_tsv" = inr (set_weak_tsv S) /\
    getitem training "weak_split" = inr (set_weak_split S) /\
    getitem training "seed" = inr (set_seed S) /\
    getitem data "weak_folder" = inr (set_weak_folder S) /\
    getitem data "unlabeled_folder" = inr (set_unlabeled_folder S) /\
    getitem training "batch_size" = inr (VList bs) /\
    bs !! 0%nat = Some (VInt (set_batch_size_synth S)) /\
    bs !! 1%nat = Some (VInt (set_batch_size_weak S)) /\
    bs !! 2%nat = Some (VInt (set_batch_size_unlabeled S)) /\
    getitem training "accumulate_batches" = inr (VInt (set_accumulate_batches S)) /\
    getitem training "n_epochs_warmup" = inr (VInt (set_n_epochs_warmup S)) /\
    Forall (has_key data)
      ["synth_val_tsv"; "synth_val_folder"; "test_tsv"; "test_folder"] /\
    Forall (has_key training)
      ["early_stop_patience"; "gradient_clip"; "validation_interval"] /\
    (fast_dev_run = false -> has_key training "n_epochs") /\
    has_key opt_section "lr".

(** The batch sizes of the three training subsets, in their order. *)
Definition batch_sizes (S : Settings) : list Z :=
  [set_batch_size_synth S; set_batch_size_weak S; set_batch_size_unlabeled S].

Section SettingsViews.
Context {W : Type} `{Externals W}.

(** The encoder of lines 70-77. *)
Definition settings_encoder (S : Settings) : ManyHotEncoder :=
  {| enc_labels := map fst classes_labels;
     enc_audio_len := set_audio_max_len S;
     enc_frame_len := set_n_filters S;
     enc_frame_hop := set_hop_length S;
     enc_net_pooling := set_net_subsample S;
     enc_fs := set_fs S |}.

(** The rows of the weak TSV (line 87). *)
Definition settings_weak_rows (S : Settings) (w : W) : list row :=
  pd_read_csv (set_weak_tsv S) w.

(** The positions line 88 draws. *)
Definition settings_sample (S : Settings) (w : W) : list nat :=
  df_sample (set_weak_split S) (set_seed S)
    (length (range_indexed (settings_weak_rows S w))) w.

(** The train frame of lines 88-92; empty if the split raises. *)
Definition settings_train_weak_df (S : Settings) (w : W) : dataframe :=
  match split_weak_df (range_indexed (settings_weak_rows S w)) (settings_sample S w) with
  | inr split => fst split
  | inl _ => []
  end.

(** The three training subsets of lines 80-104 and 132. *)
Definition training_subsets (S : Settings) (w : W) : list dataset :=
  [StronglyAnnotatedSet (set_synth_folder S)
     (range_indexed (pd_read_csv (set_synth_tsv S) w))
     (settings_encoder S) None (set_audio_max_len S);
   WeakSet (set_weak_folder S) (settings_train_weak_df S w)
     (settings_encoder S) None (set_audio_max_len S);
   UnlabelledSet (set_unlabeled_folder S)
     (settings_encoder S) None (set_audio_max_len S)].

(** Their sizes. *)
Definition subset_sizes (S : Settings) (w : W) : list Z :=
  map (fun d => dataset_len d w) (training_subsets S w).

(** [DataFrame.sample] draws positions of the frame it is called on. *)
Definition sample_in_frame (S : Settings) (w : W) : Prop :=
  Forall (fun i => (i < length (settings_weak_rows S w))%nat) (settings_sample S w).

End SettingsViews.

(** The laboratory configurations, setting by setting. *)
Module LabSettings.

Definition net_kwargs : gmap string pyval :=
  list_to_map
    [("dropout", VFloat (1 # 2)); ("rnn_layers", VInt 2);
     ("n_in_channel", VInt 1); ("nclass", VInt 10);
     ("attention", VBool true); ("n_RNN_cell", VInt 128)].

Definition settings (accumulate seed : Z) : Settings :=
  {| set_audio_max_len := VInt 10;
     set_n_filters := VInt 2048;
     set_hop_length := VInt 256;
     set_net_subsample := VInt 4;
     set_fs := VInt 16000;
     set_synth_tsv := VStr "data/synth.tsv";
     set_synth_folder := VStr "data/synth/16k";
     set_weak_tsv := VStr "data/weak.tsv";
     set_weak_split := VFloat (9 # 10);
     set_seed := VInt seed;
     set_weak_folder := VStr "data/weak/16k";
     set_unlabeled_folder := VStr "data/unlabel/16k";
     set_batch_size_synth := 12;
     set_batch_size_weak := 12;
     set_batch_size_unlabeled := 24;
     set_accumulate_batches := accumulate;
     set_n_epochs_warmup := 50 |}.

(** The laboratory world with no clip under the unlabeled folder. *)
Definition no_unlabeled_clips : Lab.world :=
  Lab.mkWorld (Lab.files Lab.w0) (Lab.tsv_files Lab.w0) ∅ (Lab.yaml_files Lab.w0)
    (Lab.checkpoints Lab.w0).

End LabSettings.

(** ** Reasoning about runs *)

Section RunLemmas.
Context {W : Type} `{Externals W}.

Lemma bind_inr {A B} (m : M W A) (k : A -> M W B) s b s' :
  bind m k s = (inr b, s') ->
  exists a s1, m s = (inr a, s1) /\ k a s1 = (inr b, s').
Proof.
  unfold bind. destruct (m s) as [[e|a] s1]; intros Hk; [discriminate|].
  exists a, s1. split; [reflexivity | exact Hk].
Qed.

Lemma bind_ok {A B} (m : M W A) (k : A -> M W B) s a s1 :
  m s = (inr a, s1) -> bind m k s = k a s1.
Proof. intros Hm. unfold bind. rewrite Hm. reflexivity. Qed.

Lemma lift_inr {A} (r : result A) (s s' : state W) a :
  lift r s = (inr a, s') -> r = inr a /\ s' = s.
Proof. unfold lift. intros Heq. inversion Heq. split; reflexivity. Qed.

Lemma ret_inr {A} (x a : A) (s s' : state W) :
  ret x s = (inr a, s') -> a = x /\ s' = s.
Proof. unfold ret. intros Heq. inversion Heq. split; reflexivity. Qed.

Lemma query_inr {A} (f : W -> A) (s s' : state W) a :
  query f s = (inr a, s') -> a = f (world s) /\ s' = s.
Proof. unfold query. intros Heq. inversion Heq. split; reflexivity. Qed.

Lemma emit_inr e (s s' : state W) u :
  emit e s = (inr u, s') ->
  s' = mkState (ext_effect e (world s)) (trace s ++ [e]).
Proof. unfold emit. intros Heq. inversion Heq. reflexivity. Qed.

Lemma raise_inr {A} e (s s' : state W) (a : A) :
  raise e s = (inr a, s') -> False.
Proof. unfold raise, lift. intros Heq. inversion Heq. Qed.

Lemma returns_with_inr {A} (r : result A * state W) (P : A -> bool) :
  returns_with r P = true -> exists a s, r = (inr a, s) /\ P a = true.
Proof.
  unfold returns_with. destruct r as [[e|a] s]; simpl; intros HP;
    [discriminate|].
  exists a, s. split; [reflexivity | exact HP].
Qed.

Lemma getitem2_inr config a b (s s' : state W) v :
  getitem2 config a b s = (inr v, s') ->
  s' = s /\ exists section, getitem config a = inr section /\ getitem section b = inr v.
Proof.
  unfold getitem2. intros Hrun.
  apply bind_inr in Hrun as (section & s1 & Hsec & Hrun).
  apply lift_inr in Hsec as [Hsec ->].
  apply lift_inr in Hrun as [Hv ->].
  split; [reflexivity|]. exists section. split; assumption.
Qed.

Lemma getitem2_ok config a b (s : state W) section v :
  getitem config a = inr section -> getitem section b = inr v ->
  getitem2 config a b s = (inr v, s).
Proof.
  intros Hsec Hv. unfold getitem2, bind, lift. rewrite Hsec, Hv. reflexivity.
Qed.

Lemma read_csv_inr path (s s' : state W) df :
  read_csv path s = (inr df, s') ->
  df = range_indexed (pd_read_csv path (world s)) /\ s' = s.
Proof.
  unfold read_csv. intros Hrun.
  apply bind_inr in Hrun as (rows & s1 & Hq & Hrun).
  apply query_inr in Hq as [-> ->].
  apply ret_inr in Hrun as [-> ->]. split; reflexivity.
Qed.

Lemma stateless_lift {A} (r : result A) : stateless (W := W) (lift r).
Proof. intros s r' s' Heq. inversion Heq. reflexivity. Qed.

Lemma stateless_ret {A} (a : A) : stateless (W := W) (ret a).
Proof. intros s r' s' Heq. inversion Heq. reflexivity. Qed.

Lemma stateless_raise {A} e : stateless (W := W) (@raise W A e).
Proof. apply stateless_lift. Qed.

Lemma stateless_query {A} (f : W -> A) : stateless (W := W) (query f).
Proof. intros s r' s' Heq. inversion Heq. reflexivity. Qed.

Lemma stateless_bind {A B} (m : M W A) (k : A -> M W B) :
  stateless (W := W) m -> (forall a, stateless (W := W) (k a)) -> stateless (W := W) (bind m k).
Proof.
  intros Hm Hk s r s' Hrun. unfold bind in Hrun.
  destruct (m s) as [[e|a] s1] eqn:Hms; apply Hm in Hms; subst s1.
  - inversion Hrun. reflexivity.
  - eapply Hk. exact Hrun.
Qed.

Lemma stateless_getitem2 config a b : stateless (W := W) (getitem2 config a b).
Proof.
  apply stateless_bind; [apply stateless_lift | intros; apply stateless_lift].
Qed.

Lemma stateless_comprehension {A X} (xs : list X) (f : X -> M W A) :
  (forall x, stateless (W := W) (f x)) -> stateless (W := W) (comprehension xs f).
Proof.
  intros Hf. induction xs as [|x xs IH]; simpl.
  - apply stateless_ret.
  - apply stateless_bind; [apply Hf|]. intros y.
    apply stateless_bind; [exact IH|]. intros ys. apply stateless_ret.
Qed.

Lemma stateless_subset_batches tot config indx :
  stateless (W := W) (subset_batches tot config indx).
Proof.
  unfold subset_batches.
  apply stateless_bind.
  { destruct (tot !! indx); [apply stateless_query | apply stateless_raise]. }
  intros n. apply stateless_bind; [apply stateless_getitem2|]. intros bs.
  apply stateless_bind; [apply stateless_lift|]. intros b.
  apply stateless_bind; [apply stateless_getitem2|]. intros acc.
  apply stateless_bind; [apply stateless_lift|]. intros d.
  apply stateless_lift.
Qed.

Lemma stateless_compute_epoch_len tot config :
  stateless (W := W) (compute_epoch_len tot config).
Proof.
  unfold compute_epoch_len. apply stateless_bind.
  - apply stateless_comprehension. intros i. apply stateless_subset_batches.
  - intros qs. apply stateless_lift.
Qed.

Lemma stateless_read_csv path : stateless (W := W) (read_csv path).
Proof.
  unfold read_csv. apply stateless_bind; [apply stateless_query|].
  intros rows. apply stateless_ret.
Qed.

Lemma lift_ok {A} (r : result A) a (s : state W) :
  r = inr a -> lift r s = (inr a, s).
Proof. intros ->. reflexivity. Qed.

Lemma bind_raise {A B} (m : M W A) (k : A -> M W B) s e s1 :
  m s = (inl e, s1) -> bind m k s = (inl e, s1).
Proof. intros Hm. unfold bind. rewrite Hm. reflexivity. Qed.

Lemma stateless_random_sampler x : stateless (W := W) (random_sampler x).
Proof.
  unfold random_sampler. apply stateless_bind; [apply stateless_query|].
  intros n. destruct (n <=? 0); [apply stateless_raise | apply stateless_ret].
Qed.

(** Line 136 returns exactly when every training subset is non-empty. *)
Lemma random_samplers_inr tot (s s' : state W) samplers :
  comprehension tot random_sampler s = (inr samplers, s') ->
  s' = s /\ samplers = map (fun x => {| data_source := x |}) tot /\
  Forall (fun x => 0 < dataset_len x (world s)) tot.
Proof.
  revert samplers. induction tot as [|x tot IH]; intros samplers Hrun.
  - inversion Hrun. repeat split. constructor.
  - simpl in Hrun.
    apply bind_inr in Hrun as (y & s1 & Hy & Hrun).
    apply bind_inr in Hrun as (ys & s2 & Hys & Hrun).
    inversion Hrun. subst samplers s'. clear Hrun.
    unfold random_sampler in Hy.
    apply bind_inr in Hy as (n & s3 & Hn & Hy).
    apply query_inr in Hn as [-> ->].
    destruct (dataset_len x (world s) <=? 0) eqn:Hlen.
    { apply raise_inr in Hy. destruct Hy. }
    inversion Hy. subst y s1. clear Hy.
    apply IH in Hys as (-> & -> & Hall).
    repeat split. constructor; [lia | exact Hall].
Qed.

Lemma random_samplers_ok tot (s : state W) :
  Forall (fun x => 0 < dataset_len x (world s)) tot ->
  comprehension tot random_sampler s =
    (inr (map (fun x => {| data_source := x |}) tot), s).
Proof.
  induction 1 as [|x tot Hx Hall IH]; [reflexivity|].
  simpl. unfold bind at 1. unfold random_sampler at 1.
  unfold bind at 1, query at 1.
  destruct (dataset_len x (world s) <=? 0) eqn:Hlen; [lia|].
  unfold ret at 1. unfold bind at 1. rewrite IH. reflexivity.
Qed.

Lemma random_samplers_raise tot (s : state W) :
  Exists (fun x => dataset_len x (world s) <= 0) tot ->
  comprehension tot random_sampler s = (inl ValueError, s).
Proof.
  induction 1 as [x tot Hx|x tot Hex IH].
  - simpl. unfold bind at 1. unfold random_sampler at 1.
    unfold bind at 1, query at 1.
    destruct (dataset_len x (world s) <=? 0) eqn:Hlen; [reflexivity | lia].
  - simpl. unfold bind at 1. unfold random_sampler at 1.
    unfold bind at 1, query at 1.
    destruct (dataset_len x (world s) <=? 0) eqn:Hlen; [reflexivity|].
    unfold ret at 1. unfold bind at 1. rewrite IH. reflexivity.
Qed.

Lemma emits_only_stateless {A} (m : M W A) P : stateless m -> emits_only m P.
Proof.
  intros Hm s r s' Hrun. apply Hm in Hrun. subst s'.
  exists []. split; [symmetry; apply app_nil_r | constructor].
Qed.

Lemma emits_only_emit e (P : event -> Prop) : P e -> emits_only (W := W) (emit e) P.
Proof.
  intros He s r s' Hrun. unfold emit in Hrun. inversion Hrun. subst.
  exists [e]. split; [reflexivity | repeat constructor; exact He].
Qed.

Lemma emits_only_bind {A B} (m : M W A) (k : A -> M W B) P :
  emits_only m P -> (forall a, emits_only (k a) P) -> emits_only (bind m k) P.
Proof.
  intros Hm Hk s r s' Hrun. unfold bind in Hrun.
  destruct (m s) as [[e|a] s1] eqn:Hms.
  - inversion Hrun. subst. eapply Hm. exact Hms.
  - destruct (Hm _ _ _ Hms) as (new1 & Ht1 & HP1).
    destruct (Hk a _ _ _ Hrun) as (new2 & Ht2 & HP2).
    exists (new1 ++ new2). split.
    + rewrite Ht2, Ht1. symmetry. apply app_assoc.
    + apply Forall_app. split; assumption.
Qed.

End RunLemmas.

(** Splits a successful run of a sequence of binds into its steps. *)
Ltac run_leaf Hm :=
  lazymatch type of Hm with
  | lift _ _ = (inr _, _) => apply lift_inr in Hm as [Hm ->]
  | ret _ _ = (inr _, _) =>
      first [apply ret_inr in Hm as [-> ->] | apply ret_inr in Hm as [Hm ->]]
  | query _ _ = (inr _, _) => apply query_inr in Hm as [-> ->]
  | getitem2 _ _ _ _ = (inr _, _) => apply getitem2_inr in Hm as [-> Hm]
  | read_csv _ _ = (inr _, _) => apply read_csv_inr in Hm as [-> ->]
  | emit _ _ = (inr _, _) => apply emit_inr in Hm; subst
  | raise _ _ = (inr _, _) => apply raise_inr in Hm; destruct Hm
  | compute_epoch_len _ _ _ = (inr _, ?s1) =>
      pose proof (stateless_compute_epoch_len _ _ _ _ _ Hm); subst s1
  | comprehension _ random_sampler _ = (inr _, _) =>
      apply random_samplers_inr in Hm as (-> & -> & Hm)
  | (match ?x with _ => _ end) _ = (inr _, _) => destruct x; run_leaf Hm
  | _ => idtac
  end.

Ltac run_step H :=
  lazymatch type of H with
  | bind _ _ _ = (inr _, _) =>
      let a := fresh "v" in
      let s := fresh "s" in
      let Hm := fresh "Hm" in
      apply bind_inr in H as (a & s & Hm & H);
      cbv beta zeta iota delta [negb] in H;
      run_leaf Hm
  end.

Ltac run_inv H := repeat run_step H; run_leaf H.

Lemma stateless_random_samplers {W} `{Externals W} tot :
  stateless (W := W) (comprehension tot random_sampler).
Proof. apply stateless_comprehension, stateless_random_sampler. Qed.

Create HintDb stateless.
#[global] Hint Resolve stateless_lift stateless_ret stateless_raise stateless_query
  stateless_getitem2 stateless_read_csv stateless_compute_epoch_len
  stateless_random_samplers : stateless.

(** Walks down a chain of binds whose steps either only read or are an
    allowed call. *)
Ltac emits_leaf :=
  first
    [ apply emits_only_stateless; solve [auto with stateless]
    | apply emits_only_emit; solve [simpl; auto]
    | match goal with
      | |- emits_only (match ?x with _ => _ end) _ => destruct x; emits_leaf
      end ].

Ltac emits_chain :=
  repeat (apply emits_only_bind; [emits_leaf | intros ?; cbv beta zeta]);
  emits_leaf.

(** [config.update] leaves the other keys alone. *)
Lemma getitem_update_ne config k x config' k' :
  dict_update1 config k x = inr config' -> k <> k' ->
  getitem config' k' = getitem config k'.
Proof.
  intros Hup Hne. destruct config; simpl in Hup; try discriminate.
  inversion Hup. subst config'. simpl. rewrite lookup_insert_ne by exact Hne.
  reflexivity.
Qed.

Lemma getitem_update_eq config k x config' :
  dict_update1 config k x = inr config' -> getitem config' k = inr x.
Proof.
  intros Hup. destruct config; simpl in Hup; try discriminate.
  inversion Hup. subst config'. simpl. rewrite lookup_insert_eq. reflexivity.
Qed.

(** Reads the sections of the configuration back from the one that
    [config.update] returned. *)
Ltac original_config Hup :=
  rewrite ?(getitem_update_ne _ _ _ _ "data" Hup),
          ?(getitem_update_ne _ _ _ _ "feats" Hup),
          ?(getitem_update_ne _ _ _ _ "training" Hup),
          ?(getitem_update_ne _ _ _ _ "net" Hup),
          ?(getitem_update_ne _ _ _ _ "opt" Hup) in * by discriminate.

(** Two reads of one key return one value. *)
Ltac same_reads :=
  repeat match goal with
  | H1 : getitem ?c ?k = inr _, H2 : getitem ?c ?k = inr _ |- _ =>
      rewrite H1 in H2; simplify_eq
  end.

(** Everything a successful set-up of [single_run] has read and built. *)
Ltac locals_inv Hrun :=
  unfold single_run_locals in Hrun;
  run_inv Hrun;
  match goal with
  | Hup : dict_update1 _ _ _ = inr _ |- _ => original_config Hup
  end;
  repeat match goal with
  | Hs : exists _, _ /\ _ |- _ => destruct Hs as (? & ? & ?)
  end;
  same_reads.

(** ** The epoch length (lines 144-153) *)

(** Python's floor division of integers is the floor of the quotient. *)
Lemma Qfloor_inject_div (s d : Z) :
  d <> 0 -> Qfloor (inject_Z s / inject_Z d) = s / d.
Proof.
  intros Hd. destruct d as [|p|p]; [congruence| |].
  - unfold Qdiv, Qinv, Qmult, Qfloor, inject_Z. simpl.
    rewrite Z.mul_1_r. reflexivity.
  - unfold Qdiv, Qinv, Qmult, Qfloor, inject_Z. simpl.
    rewrite <- (Z.div_opp_opp s (Z.neg p)) by discriminate.
    f_equal. lia.
Qed.

Lemma spec_batches_per_epoch_div acc size b :
  b * acc <> 0 -> spec_batches_per_epoch acc size b = size / (b * acc).
Proof. intros Hd. unfold spec_batches_per_epoch. apply Qfloor_inject_div, Hd. Qed.

Section EpochLength.
Context {W : Type} `{Externals W}.

(** One element of the comprehension, for integer settings: the quotient,
    or [ZeroDivisionError] when the divisor is zero. *)
Lemma subset_batches_eval tot config indx (s : state W) d training bs b acc :
  tot !! indx = Some d ->
  getitem config "training" = inr training ->
  getitem training "batch_size" = inr (VList bs) ->
  bs !! indx = Some (VInt b) ->
  getitem training "accumulate_batches" = inr (VInt acc) ->
  subset_batches tot config indx s =
    (if b * acc =? 0 then inl ZeroDivisionError
     else inr (dataset_len d (world s) / (b * acc)), s).
Proof.
  intros Hd Htr Hbs Hb Hacc. unfold subset_batches. rewrite Hd.
  unfold bind at 1. unfold query at 1.
  rewrite (bind_ok _ _ _ _ _ (getitem2_ok _ _ _ s _ _ Htr Hbs)).
  unfold bind at 1, lift at 1. simpl getindex. rewrite Hb.
  rewrite (bind_ok _ _ _ _ _ (getitem2_ok _ _ _ s _ _ Htr Hacc)).
  unfold bind, lift. simpl. destruct (b * acc =? 0); reflexivity.
Qed.

(** The epoch length of three subsets with integer batch sizes and a
    non-zero divisor each: the computation returns, and returns the
    specification's minimum of floors. *)
Lemma compute_epoch_len_ok d0 d1 d2 config (s : state W) training bs b0 b1 b2 acc :
  getitem config "training" = inr training ->
  getitem training "batch_size" = inr (VList bs) ->
  bs !! 0%nat = Some (VInt b0) ->
  bs !! 1%nat = Some (VInt b1) ->
  bs !! 2%nat = Some (VInt b2) ->
  getitem training "accumulate_batches" = inr (VInt acc) ->
  b0 * acc <> 0 -> b1 * acc <> 0 -> b2 * acc <> 0 ->
  compute_epoch_len [d0; d1; d2] config s =
    (inr (spec_epoch_len
            [dataset_len d0 (world s); dataset_len d1 (world s);
             dataset_len d2 (world s)] [b0; b1; b2] acc), s).
Proof.
  intros Htr Hbs Hb0 Hb1 Hb2 Hacc Hz0 Hz1 Hz2.
  unfold compute_epoch_len. simpl length. simpl seq. simpl comprehension.
  unfold bind at 1. unfold bind at 1.
  rewrite (subset_batches_eval [d0; d1; d2] config 0%nat s d0 _ _ _ _ eq_refl Htr Hbs Hb0 Hacc).
  apply Z.eqb_neq in Hz0 as Hz0'. rewrite Hz0'.
  unfold bind at 1. unfold bind at 1.
  rewrite (subset_batches_eval [d0; d1; d2] config 1%nat s d1 _ _ _ _ eq_refl Htr Hbs Hb1 Hacc).
  apply Z.eqb_neq in Hz1 as Hz1'. rewrite Hz1'.
  unfold bind at 1. unfold bind at 1.
  rewrite (subset_batches_eval [d0; d1; d2] config 2%nat s d2 _ _ _ _ eq_refl Htr Hbs Hb2 Hacc).
  apply Z.eqb_neq in Hz2 as Hz2'. rewrite Hz2'.
  unfold bind, ret, lift. simpl.
  unfold spec_epoch_len. simpl.
  rewrite !spec_batches_per_epoch_div by assumption.
  do 2 f_equal. lia.
Qed.

(** A zero divisor is not a zero epoch length: the division raises. *)
Lemma compute_epoch_len_inr_nonzero d0 d1 d2 config (s s' : state W) n
    training bs b0 b1 b2 acc :
  getitem config "training" = inr training ->
  getitem training "batch_size" = inr (VList bs) ->
  bs !! 0%nat = Some (VInt b0) ->
  bs !! 1%nat = Some (VInt b1) ->
  bs !! 2%nat = Some (VInt b2) ->
  getitem training "accumulate_batches" = inr (VInt acc) ->
  compute_epoch_len [d0; d1; d2] config s = (inr n, s') ->
  b0 * acc <> 0 /\ b1 * acc <> 0 /\ b2 * acc <> 0.
Proof.
  intros Htr Hbs Hb0 Hb1 Hb2 Hacc Hrun.
  unfold compute_epoch_len in Hrun. simpl length in Hrun. simpl seq in Hrun.
  simpl comprehension in Hrun.
  apply bind_inr in Hrun as (qs & s1 & Hc & _).
  apply bind_inr in Hc as (q0 & s2 & Hq0 & Hc).
  rewrite (subset_batches_eval [d0; d1; d2] config 0%nat s d0 _ _ _ _ eq_refl Htr Hbs Hb0 Hacc) in Hq0.
  destruct (b0 * acc =? 0) eqn:E0; [discriminate Hq0|]. inversion Hq0; subst s2.
  apply bind_inr in Hc as (qs1 & s3 & Hc & _).
  apply bind_inr in Hc as (q1 & s4 & Hq1 & Hc).
  rewrite (subset_batches_eval [d0; d1; d2] config 1%nat s d1 _ _ _ _ eq_refl Htr Hbs Hb1 Hacc) in Hq1.
  destruct (b1 * acc =? 0) eqn:E1; [discriminate Hq1|]. inversion Hq1; subst s4.
  apply bind_inr in Hc as (qs2 & s5 & Hc & _).
  apply bind_inr in Hc as (q2 & s6 & Hq2 & Hc).
  rewrite (subset_batches_eval [d0; d1; d2] config 2%nat s d2 _ _ _ _ eq_refl Htr Hbs Hb2 Hacc) in Hq2.
  destruct (b2 * acc =? 0) eqn:E2; [discriminate Hq2|].
  apply Z.eqb_neq in E0, E1, E2. auto.
Qed.

(** The epoch length among the locals of a run that reached the trainer. *)
Lemma locals_epoch_len
    config log_dir gpus resume fast_dev_run (st st' : state W) L
    training bs b0 b1 b2 acc :
  single_run_locals config log_dir gpus resume fast_dev_run st = (inr L, st') ->
  getitem config "training" = inr training ->
  getitem training "batch_size" = inr (VList bs) ->
  bs !! 0%nat = Some (VInt b0) ->
  bs !! 1%nat = Some (VInt b1) ->
  bs !! 2%nat = Some (VInt b2) ->
  getitem training "accumulate_batches" = inr (VInt acc) ->
  l_tot_train_data L = [l_synth_set L; l_weak_set L; l_unlabeled_set L] /\
  (b0 * acc <> 0 /\ b1 * acc <> 0 /\ b2 * acc <> 0) /\
  l_epoch_len L =
    spec_epoch_len
      (map (fun d => dataset_len d (world st)) (l_tot_train_data L))
      [b0; b1; b2] acc.
Proof.
  intros Hrun Htr Hbs Hb0 Hb1 Hb2 Hacc.
  unfold single_run_locals in Hrun. destruct fast_dev_run; run_inv Hrun.
  all: simpl; split; [reflexivity|].
  all: match goal with
       | Hup : dict_update1 _ _ _ = inr _,
         Hc : compute_epoch_len _ _ _ = _ |- _ =>
           rewrite <- (getitem_update_ne _ _ _ _ "training" Hup) in Htr
             by discriminate;
           destruct (compute_epoch_len_inr_nonzero _ _ _ _ _ _ _ _ _ _ _ _ _
                       Htr Hbs Hb0 Hb1 Hb2 Hacc Hc) as (Hz0 & Hz1 & Hz2);
           split; [auto|];
           rewrite (compute_epoch_len_ok _ _ _ _ _ _ _ _ _ _ _
                      Htr Hbs Hb0 Hb1 Hb2 Hacc Hz0 Hz1 Hz2) in Hc;
           inversion Hc; reflexivity
       end.
Qed.

(** C1. The epoch length [single_run] computes is the minimum, over the
    three training subsets in the order synthetic, weak, unlabeled, of
    floor(size / (batch size * accumulation factor)), the batch size of a
    subset being the entry of [training.batch_size] at its position. *)
Theorem single_run_epoch_len_is_min_floor
    config log_dir gpus resume fast_dev_run (st st' : state W) L
    training bs b0 b1 b2 acc :
  single_run_locals config log_dir gpus resume fast_dev_run st = (inr L, st') ->
  getitem config "training" = inr training ->
  getitem training "batch_size" = inr (VList bs) ->
  bs !! 0%nat = Some (VInt b0) ->
  bs !! 1%nat = Some (VInt b1) ->
  bs !! 2%nat = Some (VInt b2) ->
  getitem training "accumulate_batches" = inr (VInt acc) ->
  l_tot_train_data L = [l_synth_set L; l_weak_set L; l_unlabeled_set L] /\
  l_epoch_len L =
    spec_epoch_len
      (map (fun d => dataset_len d (world st)) (l_tot_train_data L))
      [b0; b1; b2] acc.
Proof.
  intros Hrun Htr Hbs Hb0 Hb1 Hb2 Hacc.
  destruct (locals_epoch_len _ _ _ _ _ _ _ _ _ _ _ _ _ _
              Hrun Htr Hbs Hb0 Hb1 Hb2 Hacc) as (Htot & _ & Hlen).
  split; assumption.
Qed.

End EpochLength.

(** The laboratory run: 120, 90 and 240 clips in batches of 12, 12 and 24
    make epochs of 7 combined batches. *)
Lemma single_run_epoch_len_witness :
  exists L st',
    single_run_locals Lab.config "./exp/2021_baseline" (VStr "0") None false Lab.st0
      = (inr L, st') /\
    l_epoch_len L = 7 /\
    l_epoch_len L =
      spec_epoch_len
        (map (fun d => dataset_len d (world Lab.st0)) (l_tot_train_data L))
        [12; 12; 24] 1.
Proof.
  destruct (returns_with_inr
              (single_run_locals Lab.config "./exp/2021_baseline" (VStr "0") None
                 false Lab.st0)
              (fun L => l_epoch_len L =? 7))
    as (L & st' & Hrun & Hseven); [vm_compute; reflexivity|].
  exists L, st'. split; [exact Hrun|]. split; [apply Z.eqb_eq, Hseven|].
  eapply (single_run_epoch_len_is_min_floor _ _ _ _ _ _ _ _ _ _ _ _ _ _ Hrun);
    reflexivity.
Defined.

(** ** The trainer calls of [single_run] (lines 223-228) *)

Section TrainerCalls2.
Context {W : Type} `{Externals W}.

(** Before the trainer exists, the only call with an effect is the
    [print] of the experiment directory. *)
Lemma single_run_locals_emits config log_dir gpus resume fast_dev_run :
  emits_only (W := W)
    (single_run_locals config log_dir gpus resume fast_dev_run) is_print.
Proof.
  unfold single_run_locals. destruct fast_dev_run; cbv beta zeta iota delta [negb].
  - emits_chain.
  - emits_chain.
Qed.
End TrainerCalls2.

Section Orchestration.
Context {W : Type} `{Externals W}.

(** Once the trainer is built, [single_run] makes two calls and returns. *)
Lemma single_run_after_locals config log_dir gpus resume tsd fdr
    (st st1 : state W) L :
  single_run_locals config log_dir gpus resume fdr st = (inr L, st1) ->
  exists st2,
    single_run config log_dir gpus resume tsd fdr st = (inr tt, st2) /\
    trace st2 =
      trace st1 ++
        [if is_None tsd then EvFit (l_trainer L) (l_desed_training L)
         else EvLoadStateDict (l_desed_training L) tsd;
         EvTest (l_trainer L) (l_desed_training L) "best"].
Proof.
  intros Hloc. unfold single_run. rewrite (bind_ok _ _ _ _ _ Hloc).
  destruct (is_None tsd); unfold bind, emit; simpl;
    (eexists; split; [reflexivity|]); simpl;
    rewrite <- app_assoc; reflexivity.
Qed.

(** If the set-up raises, [single_run] raises the same exception at once. *)
Lemma single_run_locals_raise config log_dir gpus resume tsd fdr
    (st st1 : state W) e :
  single_run_locals config log_dir gpus resume fdr st = (inl e, st1) ->
  single_run config log_dir gpus resume tsd fdr st = (inl e, st1).
Proof. intros Hloc. unfold single_run, bind. rewrite Hloc. reflexivity. Qed.

(** A set-up that succeeds has printed the experiment directory, once. *)
Lemma single_run_locals_trace config log_dir gpus resume fdr
    (st st1 : state W) L :
  single_run_locals config log_dir gpus resume fdr st = (inr L, st1) ->
  trace st1 =
    trace st ++
      [EvPrint [VStr "experiment dir: "; VStr (tb_log_dir (l_logger L) (world st))]].
Proof.
  intros Hrun. destruct fdr; locals_inv Hrun; reflexivity.
Qed.

End Orchestration.

(** ** What [single_run] constructs *)

Section Construction.
Context {W : Type} `{Externals W}.

(** The optimizer and the scheduler among the locals. *)
Lemma locals_optimizer_scheduler config log_dir gpus resume fdr
  (st st' : state W) L :
single_run_locals config log_dir gpus resume fdr st = (inr L, st') ->
exists kwargs training n_epochs_warmup opt_section lr,
  getitem config "net" = inr (VDict kwargs) /\
  getitem config "training" = inr training /\
  getitem training "n_epochs_warmup" = inr n_epochs_warmup /\
  getitem config "opt" = inr opt_section /\
  getitem opt_section "lr" = inr lr /\
  l_sed_student L = {| crnn_kwargs := kwargs |} /\
  l_opt L =
    {| adam_params_of := l_sed_student L;
       adam_lr := VFloat (1 # 1000);
       adam_betas := (VFloat (9 # 10), VFloat (999 # 1000)) |} /\
  py_mul n_epochs_warmup (VInt (l_epoch_len L)) = inr (l_exp_steps L) /\
  l_exp_scheduler L =
    {| sd_scheduler :=
         {| ew_optimizer := l_opt L;
            ew_max_lr := lr;
            ew_rampup_length := l_exp_steps L |};
       sd_interval := "step" |} /\
  task_sed_student (l_desed_training L) = l_sed_student L /\
  task_opt (l_desed_training L) = l_opt L /\
  task_scheduler (l_desed_training L) = l_exp_scheduler L.
Proof.
intros Hrun. destruct fdr; locals_inv Hrun; simpl.
all: do 5 eexists; repeat split; eassumption || reflexivity.
Qed.

(** C7. The optimizer is Adam over the parameters of the model, with
  learning rate 1e-3 and coefficients (0.9, 0.999); the scheduler is an
  ExponentialWarmup of that optimizer towards [opt.lr] whose ramp-up
  length is [training.n_epochs_warmup * epoch_len], under the interval
  "step"; both are what the training module receives. *)
Theorem single_run_optimizer_and_scheduler config log_dir gpus resume fdr
  (st st' : state W) L :
single_run_locals config log_dir gpus resume fdr st = (inr L, st') ->
exists training n_epochs_warmup opt_section lr,
  getitem config "training" = inr training /\
  getitem training "n_epochs_warmup" = inr n_epochs_warmup /\
  getitem config "opt" = inr opt_section /\
  getitem opt_section "lr" = inr lr /\
  l_opt L =
    {| adam_params_of := l_sed_student L;
       adam_lr := VFloat (1 # 1000);
       adam_betas := (VFloat (9 # 10), VFloat (999 # 1000)) |} /\
  py_mul n_epochs_warmup (VInt (l_epoch_len L)) = inr (l_exp_steps L) /\
  (forall n, n_epochs_warmup = VInt n ->
     l_exp_steps L = VInt (n * l_epoch_len L)) /\
  l_exp_scheduler L =
    {| sd_scheduler :=
         {| ew_optimizer := l_opt L;
            ew_max_lr := lr;
            ew_rampup_length := l_exp_steps L |};
       sd_interval := "step" |} /\
  task_sed_student (l_desed_training L) = l_sed_student L /\
  task_opt (l_desed_training L) = l_opt L /\
  task_scheduler (l_desed_training L) = l_exp_scheduler L.
Proof.
intros Hrun.
destruct (locals_optimizer_scheduler _ _ _ _ _ _ _ _ Hrun)
  as (kwargs & training & nw & opt_section & lr & Hnet & Htr & Hnw & Hopt
      & Hlr & Hstudent & Hadam & Hmul & Hsched & Ht1 & Ht2 & Ht3).
exists training, nw, opt_section, lr.
repeat (split; [assumption|]).
split; [|repeat split; assumption].
intros n ->. simpl in Hmul. inversion Hmul. reflexivity.
Qed.

(** C8. In fast development mode the trainer is limited to 2 batches in
  each of the train, validation and test phases, runs 3 epochs and logs
  and flushes at every step; otherwise the three limits are 1.0, the
  number of epochs is [training.n_epochs], and it logs every 40 and
  flushes every 100 steps. *)
Theorem single_run_trainer_limits config log_dir gpus resume fdr
  (st st' : state W) L :
single_run_locals config log_dir gpus resume fdr st = (inr L, st') ->
let trainer := l_trainer L in
if fdr then
  limit_train_batches trainer = VInt 2 /\
  limit_val_batches trainer = VInt 2 /\
  limit_test_batches trainer = VInt 2 /\
  max_epochs trainer = VInt 3 /\
  log_every_n_steps trainer = VInt 1 /\
  flush_logs_every_n_steps trainer = VInt 1
else
  limit_train_batches trainer = VFloat 1 /\
  limit_val_batches trainer = VFloat 1 /\
  limit_test_batches trainer = VFloat 1 /\
  (exists training,
     getitem config "training" = inr training /\
     getitem training "n_epochs" = inr (max_epochs trainer)) /\
  log_every_n_steps trainer = VInt 40 /\
  flush_logs_every_n_steps trainer = VInt 100.
Proof.
intros Hrun. destruct fdr; locals_inv Hrun; simpl.
- repeat split; reflexivity.
- repeat split; try reflexivity. eexists. split; eassumption.
Qed.

(** C10. The validation dataset is the concatenation of the synthetic
  validation view, the weak validation view and the devtest view; the
  test dataset is that same devtest view; and of the six views built,
  exactly these three are constructed with [return_filename=True]. *)
Theorem single_run_validation_includes_devtest config log_dir gpus resume fdr
  (st st' : state W) L :
single_run_locals config log_dir gpus resume fdr st = (inr L, st') ->
l_valid_dataset L =
  ConcatDataset [l_synth_val L; l_weak_val L; l_devtest_dataset L] /\
l_test_dataset L = l_devtest_dataset L /\
task_valid_data (l_desed_training L) = l_valid_dataset L /\
task_test_data (l_desed_training L) = l_test_dataset L /\
task_train_data (l_desed_training L) =
  ConcatDataset [l_synth_set L; l_weak_set L; l_unlabeled_set L] /\
filter (fun d => returns_filename d = true) (views L) =
  [l_synth_val L; l_weak_val L; l_devtest_dataset L] /\
(exists data test_folder test_tsv,
   getitem config "data" = inr data /\
   getitem data "test_folder" = inr test_folder /\
   getitem data "test_tsv" = inr test_tsv /\
   exists encoder pad_to,
     l_devtest_dataset L =
       StronglyAnnotatedSet test_folder
         (range_indexed (pd_read_csv test_tsv (world st)))
         encoder (Some true) pad_to).
Proof.
intros Hrun. destruct fdr; locals_inv Hrun; simpl.
all: repeat (split; [reflexivity|]).
all: do 3 eexists; repeat (split; [eassumption|]).
all: eexists; eexists; reflexivity.
Qed.

End Construction.

(** ** An empty epoch *)

Section EmptyEpoch.
Context {W : Type} `{Externals W}.

(** Non-negative sizes and positive divisors, one size below its divisor:
  the minimum of the floors is zero. *)
Lemma spec_epoch_len_zero s0 s1 s2 b0 b1 b2 acc :
0 <= s0 -> 0 <= s1 -> 0 <= s2 ->
0 < b0 -> 0 < b1 -> 0 < b2 -> 0 < acc ->
s0 < b0 * acc \/ s1 < b1 * acc \/ s2 < b2 * acc ->
spec_epoch_len [s0; s1; s2] [b0; b1; b2] acc = 0.
Proof.
intros Hs0 Hs1 Hs2 Hb0 Hb1 Hb2 Hacc Hsmall.
unfold spec_epoch_len. simpl.
rewrite !spec_batches_per_epoch_div by nia.
assert (0 <= s0 / (b0 * acc)) by (apply Z.div_pos; nia).
assert (0 <= s1 / (b1 * acc)) by (apply Z.div_pos; nia).
assert (0 <= s2 / (b2 * acc)) by (apply Z.div_pos; nia).
destruct Hsmall as [Hlt|[Hlt|Hlt]].
- rewrite (Z.div_small s0) by lia. lia.
- rewrite (Z.div_small s1) by lia. lia.
- rewrite (Z.div_small s2) by lia. lia.
Qed.

End EmptyEpoch.

(** C2, as stated, fails: in the laboratory run with an accumulation factor
    of 8 the weak subset has 90 clips against 12 * 8 = 96 per step, the
    epoch length is zero, and yet [single_run] raises nothing, builds the
    trainer and runs fit and test. *)
Lemma single_run_empty_epoch_counterexample :
  let run :=
    single_run (Lab.config_with 8 42) "./exp/2021_baseline" (VStr "0")
      None VNone false Lab.st0 in
  returns_with
    (single_run_locals (Lab.config_with 8 42) "./exp/2021_baseline" (VStr "0")
       None false Lab.st0)
    (fun L =>
       (dataset_len (l_weak_set L) Lab.w0 =? 90) && (90 <? 12 * 8) &&
       (l_epoch_len L =? 0)) = true /\
  fst run = inr tt /\
  map call_of (trace (snd run)) = [CallPrint; CallFit; CallTest].
Proof.
  intros run. subst run. repeat split; vm_compute; reflexivity.
Qed.

(** The laboratory run builds its optimizer and scheduler. *)
Lemma single_run_optimizer_and_scheduler_witness :
  exists L st',
    single_run_locals Lab.config "./exp/2021_baseline" (VStr "0") None false Lab.st0
      = (inr L, st') /\
    l_exp_steps L = VInt 350 /\
    adam_lr (l_opt L) = VFloat (1 # 1000) /\
    adam_betas (l_opt L) = (VFloat (9 # 10), VFloat (999 # 1000)) /\
    sd_interval (l_exp_scheduler L) = "step" /\
    ew_rampup_length (sd_scheduler (l_exp_scheduler L)) = l_exp_steps L.
Proof.
  destruct (returns_with_inr
              (single_run_locals Lab.config "./exp/2021_baseline" (VStr "0") None
                 false Lab.st0)
              (fun L => match l_exp_steps L with
                        | VInt n => n =? 350
                        | _ => false
                        end))
    as (L & st' & Hrun & Hsteps); [vm_compute; reflexivity|].
  destruct (single_run_optimizer_and_scheduler _ _ _ _ _ _ _ _ Hrun)
    as (training & nw & opt_section & lr & _ & _ & _ & _ & Hadam & _ & _
        & Hsched & _).
  exists L, st'. split; [exact Hrun|].
  rewrite Hsched, Hadam. simpl.
  destruct (l_exp_steps L); try discriminate Hsteps.
  apply Z.eqb_eq in Hsteps. subst. repeat split; reflexivity.
Defined.

(** The laboratory run in fast development mode. *)
Lemma single_run_trainer_limits_witness :
  exists L st',
    single_run_locals Lab.config "./exp/2021_baseline" (VStr "0") None true Lab.st0
      = (inr L, st') /\
    limit_train_batches (l_trainer L) = VInt 2 /\
    limit_val_batches (l_trainer L) = VInt 2 /\
    limit_test_batches (l_trainer L) = VInt 2 /\
    max_epochs (l_trainer L) = VInt 3 /\
    log_every_n_steps (l_trainer L) = VInt 1 /\
    flush_logs_every_n_steps (l_trainer L) = VInt 1.
Proof.
  destruct (returns_with_inr
              (single_run_locals Lab.config "./exp/2021_baseline" (VStr "0") None
                 true Lab.st0) (fun _ => true))
    as (L & st' & Hrun & _); [vm_compute; reflexivity|].
  exists L, st'. split; [exact Hrun|].
  exact (single_run_trainer_limits _ _ _ _ _ _ _ _ Hrun).
Defined.

(** The laboratory run validates on 30 + 10 + 40 clips and tests on the
    last 40 of them. *)
Lemma single_run_validation_includes_devtest_witness :
  exists L st',
    single_run_locals Lab.config "./exp/2021_baseline" (VStr "0") None false Lab.st0
      = (inr L, st') /\
    l_valid_dataset L =
      ConcatDataset [l_synth_val L; l_weak_val L; l_devtest_dataset L] /\
    l_test_dataset L = l_devtest_dataset L /\
    filter (fun d => returns_filename d = true) (views L) =
      [l_synth_val L; l_weak_val L; l_devtest_dataset L].
Proof.
  destruct (returns_with_inr
              (single_run_locals Lab.config "./exp/2021_baseline" (VStr "0") None
                 false Lab.st0) (fun _ => true))
    as (L & st' & Hrun & _); [vm_compute; reflexivity|].
  destruct (single_run_validation_includes_devtest _ _ _ _ _ _ _ _ Hrun)
    as (Hvalid & Htest & _ & _ & _ & Hviews & _).
  exists L, st'. repeat split; assumption.
Defined.

(** ** The entry point *)

Section EntryPoint.
Context {W : Type} `{Externals W}.

(** The rows of the weak split among the locals: the sample is drawn with
    [training.weak_split] as the fraction and [training.seed] as the random
    state, from the frame read from [data.weak_tsv]. *)
Lemma locals_weak_split config log_dir gpus resume fdr (st st' : state W) L :
  single_run_locals config log_dir gpus resume fdr st = (inr L, st') ->
  exists data weak_tsv training weak_split seed,
    getitem config "data" = inr data /\
    getitem data "weak_tsv" = inr weak_tsv /\
    getitem config "training" = inr training /\
    getitem training "weak_split" = inr weak_split /\
    getitem training "seed" = inr seed /\
    l_weak_df L = range_indexed (pd_read_csv weak_tsv (world st)) /\
    split_weak_df (l_weak_df L)
      (df_sample weak_split seed (length (l_weak_df L)) (world st))
      = inr (l_train_weak_df L, l_valid_weak_df L) /\
    (exists folder encoder pad_to,
       l_weak_set L = WeakSet folder (l_train_weak_df L) encoder None pad_to) /\
    (exists folder encoder pad_to,
       l_weak_val L =
         WeakSet folder (l_valid_weak_df L) encoder (Some true) pad_to).
Proof.
  intros Hrun. destruct fdr; locals_inv Hrun; simpl.
  all: do 5 eexists; repeat (split; [eassumption || reflexivity|]).
  all: split; [|split; do 3 eexists; reflexivity].
  all: match goal with
       | Hs : split_weak_df _ _ = inr ?p |- _ => rewrite Hs; destruct p; reflexivity
       end.
Qed.

(** C5. With [--test_from_checkpoint], the configuration handed to
    [single_run] is the [hyper_parameters] of the checkpoint with its [data]
    entry set to the [data] section of the current configuration file;
    every other entry is the checkpoint's. *)
Theorem test_from_checkpoint_overrides_data_only args path (st st' : state W)
    configs test_model_state_dict :
  test_from_checkpoint args = Some path ->
  main_configs args st = (inr (configs, test_model_state_dict), st') ->
  let current := yaml_safe_load (conf_file args) (world st) in
  let checkpoint := torch_load path (world st) in
  exists hyper_parameters data,
    getitem checkpoint "hyper_parameters" = inr (VDict hyper_parameters) /\
    getitem current "data" = inr data /\
    configs = VDict (<["data" := data]> hyper_parameters) /\
    getitem configs "data" = inr data /\
    (forall k, k <> "data" ->
       getitem configs k = getitem (VDict hyper_parameters) k) /\
    getitem checkpoint "state_dict" = inr test_model_state_dict /\
    main args st =
      (main_seed configs ;;;
       data <- lift (getitem configs "data") ;;
       resample_data_generate_durations data ;;;
       single_run configs (log_dir args) (VStr (arg_gpus args))
         (arg_resume_from_checkpoint args) test_model_state_dict
         (arg_fast_dev_run args)) st'.
Proof.
  intros Hpath Hrun current checkpoint. subst current checkpoint.
  assert (Hmain : main args st =
      (main_seed configs ;;;
       data <- lift (getitem configs "data") ;;
       resample_data_generate_durations data ;;;
       single_run configs (log_dir args) (VStr (arg_gpus args))
         (arg_resume_from_checkpoint args) test_model_state_dict
         (arg_fast_dev_run args)) st').
  { unfold main. rewrite (bind_ok _ _ _ _ _ Hrun). reflexivity. }
  unfold main_configs in Hrun. rewrite Hpath in Hrun. run_inv Hrun.
  simplify_eq.
  match goal with
  | Hset : setitem ?hp "data" ?d = inr _ |- _ =>
      destruct hp; simpl in Hset; try discriminate Hset; inversion Hset; subst
  end.
  do 2 eexists. repeat (split; [eassumption || reflexivity|]).
  split; [simpl; rewrite lookup_insert_eq; reflexivity|].
  split; [|split; [assumption | exact Hmain]].
  intros k Hk. simpl. rewrite lookup_insert_ne by congruence. reflexivity.
Qed.

End EntryPoint.

(** In the laboratory the checkpoint of an earlier run stores another
    [data] section, its own network and its own training section: testing
    from it takes the [data] section of the current file and the rest from
    the checkpoint. *)
Lemma test_from_checkpoint_overrides_data_only_witness :
  exists configs test_model_state_dict st',
    main_configs Lab.test_args Lab.st0
      = (inr (configs, test_model_state_dict), st') /\
    getitem configs "data" = inr Lab.data_section /\
    getitem configs "net" = inr Lab.earlier_net /\
    getitem configs "training" = inr (Lab.training_section 2 7) /\
    test_model_state_dict = Lab.state_dict.
Proof.
  destruct (returns_with_inr (main_configs Lab.test_args Lab.st0) (fun _ => true))
    as ([configs tsd] & st' & Hrun & _); [vm_compute; reflexivity|].
  destruct (test_from_checkpoint_overrides_data_only Lab.test_args
              "exp/earlier/best.ckpt" Lab.st0 st' configs tsd eq_refl Hrun)
    as (hp & data & Hhp & Hdata & _ & Hd & Hother & Hsd & _).
  change (@inr exn pyval (VDict Lab.hyper_parameters) = inr (VDict hp)) in Hhp.
  change (@inr exn pyval Lab.data_section = inr data) in Hdata.
  change (@inr exn pyval Lab.state_dict = inr tsd) in Hsd.
  inversion Hhp. inversion Hdata. inversion Hsd. subst hp data tsd.
  exists configs, Lab.state_dict, st'. split; [exact Hrun|].
  split; [exact Hd|].
  rewrite (Hother "net"), (Hother "training") by discriminate.
  repeat split; reflexivity.
Defined.

(** ** Resampling and the duration files (lines 26-43) *)

Section Durations.
Context {W : Type} `{Externals W}.

(** X1. What [resample_data_generate_durations] does on a [data] section
    that has every key it reads: five resampling calls, then at most two calls
    that regenerate a duration file. Whether a file is regenerated depends
    on its absence and on [computed], the flag returned by the LAST
    resampling call, the one of the test folder: the flags of the first
    four calls are overwritten. *)
Lemma resample_data_generate_durations_trace config_data (st : state W)
    synth synth44 synth_val synth_val44 weak weak44 unlabeled unlabeled44
    test test44 fs synth_val_dur test_dur :
  getitem config_data "synth_folder_44k" = inr synth44 ->
  getitem config_data "synth_folder" = inr synth ->
  getitem config_data "synth_val_folder_44k" = inr synth_val44 ->
  getitem config_data "synth_val_folder" = inr synth_val ->
  getitem config_data "weak_folder_44k" = inr weak44 ->
  getitem config_data "weak_folder" = inr weak ->
  getitem config_data "unlabeled_folder_44k" = inr unlabeled44 ->
  getitem config_data "unlabeled_folder" = inr unlabeled ->
  getitem config_data "test_folder_44k" = inr test44 ->
  getitem config_data "test_folder" = inr test ->
  getitem config_data "fs" = inr fs ->
  getitem config_data "synth_val_dur" = inr synth_val_dur ->
  getitem config_data "test_dur" = inr test_dur ->
  let r1 := EvResampleFolder synth44 synth fs in
  let r2 := EvResampleFolder synth_val44 synth_val fs in
  let r3 := EvResampleFolder weak44 weak fs in
  let r4 := EvResampleFolder unlabeled44 unlabeled fs in
  let r5 := EvResampleFolder test44 test fs in
  let w4 :=
    ext_effect r4 (ext_effect r3 (ext_effect r2 (ext_effect r1 (world st)))) in
  let computed := resample_folder_returns test44 test fs w4 in
  let w5 := ext_effect r5 w4 in
  let g1 := EvGenerateDurations synth_val synth_val_dur in
  let regenerate1 := negb (os_path_exists synth_val_dur w5) || computed in
  let w6 := if regenerate1 then ext_effect g1 w5 else w5 in
  let g2 := EvGenerateDurations test test_dur in
  let regenerate2 := negb (os_path_exists test_dur w6) || computed in
  exists st',
    resample_data_generate_durations config_data st = (inr tt, st') /\
    trace st' =
      trace st ++ [r1; r2; r3; r4; r5]
        ++ (if regenerate1 then [g1] else [])
        ++ (if regenerate2 then [g2] else []).
Proof.
  intros H1 H2 H3 H4 H5 H6 H7 H8 H9 H10 Hfs Hd1 Hd2.
  intros r1 r2 r3 r4 r5 w4 computed w5 g1 regenerate1 w6 g2 regenerate2.
  unfold resample_data_generate_durations, dsets. simpl for_each.
  unfold bind, lift, query, emit, ret, raise, lift.
  cbn -[getitem]. cbv beta iota delta [String.append].
  rewrite H1, H2, H3, H4, H5, H6, H7, H8, H9, H10, Hfs, Hd1, Hd2.
  cbn -[getitem].
  subst r1 r2 r3 r4 r5 w4 computed w5 g1 regenerate1 w6 g2 regenerate2.
  destruct (os_path_exists synth_val_dur _);
    destruct (resample_folder_returns test44 test fs _);
    cbn -[getitem];
    destruct (os_path_exists test_dur _);
    cbn -[getitem];
    (eexists; split; [reflexivity|]); cbn;
    rewrite <- ?app_assoc; reflexivity.
Qed.

End Durations.

(** C3, where the code departs from it. In the laboratory every resampled
    folder but the synthetic validation one exists, and so do both duration
    files. The second resampling call, of the synthetic validation folder,
    reports new files; the fifth, of the test folder, does not. The
    procedure makes its five resampling calls and regenerates no duration
    file, not even that of the folder it has just resampled. *)
Theorem resample_flag_of_earlier_folder_is_lost :
  let r1 :=
    EvResampleFolder (VStr "data/synth/44k") (VStr "data/synth/16k") (VInt 16000) in
  let run := resample_data_generate_durations Lab.data_section Lab.st0 in
  resample_folder_returns (VStr "data/synth_val/44k") (VStr "data/synth_val/16k")
    (VInt 16000) (ext_effect r1 Lab.w0) = true /\
  os_path_exists (VStr "data/synth_val_dur.tsv") Lab.w0 = true /\
  os_path_exists (VStr "data/test_dur.tsv") Lab.w0 = true /\
  fst run = inr tt /\
  map call_of (trace (snd run)) =
    [CallResample; CallResample; CallResample; CallResample; CallResample].
Proof.
  intros r1 run. subst r1 run. repeat split; vm_compute; reflexivity.
Qed.

(** ** The weak train/validation split (lines 87-92) *)

Section WeakSplit.
Context (rows : list row).

Lemma range_indexed_lookup i r :
  rows !! i = Some r -> range_indexed rows !! i = Some (i, r).
Proof.
  intros Hr. unfold range_indexed, zip. apply lookup_zip_with_Some.
  exists i, r. split; [reflexivity|]. split; [|exact Hr].
  apply lookup_seq. split; [reflexivity|]. eapply lookup_lt_Some, Hr.
Qed.

Lemma range_indexed_labelled : labelled_by rows (range_indexed rows).
Proof.
  apply Forall_lookup. intros i [j r] Hi.
  unfold range_indexed, zip in Hi. apply lookup_zip_with_Some in Hi.
  destruct Hi as (j' & r' & Heq & Hj & Hr). inversion Heq. subst j' r'.
  apply lookup_seq in Hj as [-> _]. exact Hr.
Qed.

Lemma df_index_range_indexed :
  df_index (range_indexed rows) = seq 0 (length rows).
Proof.
  unfold df_index, range_indexed. apply fst_zip. rewrite length_seq. lia.
Qed.

Lemma rows_of_range_indexed : map snd (range_indexed rows) = rows.
Proof. unfold range_indexed. apply snd_zip. rewrite length_seq. lia. Qed.

(** [take] at positions inside the frame succeeds. *)
Lemma df_take_ok locs :
  Forall (fun i => (i < length rows)%nat) locs ->
  exists sampled,
    df_take (range_indexed rows) locs = inr sampled /\
    df_index sampled = locs /\
    labelled_by rows sampled.
Proof.
  induction locs as [|i locs IH]; intros Hin.
  - exists []. repeat split. constructor.
  - inversion Hin as [|? ? Hi Hrest]. subst.
    destruct (IH Hrest) as (sampled & Htake & Hidx & Hlab).
    destruct (lookup_lt_is_Some_2 rows i Hi) as [r Hr].
    exists ((i, r) :: sampled). simpl.
    rewrite (range_indexed_lookup _ _ Hr), Htake.
    repeat split.
    + simpl. rewrite Hidx. reflexivity.
    + constructor; [exact Hr | exact Hlab].
Qed.

(** [drop] of labels the frame has succeeds and keeps the other rows. *)
Lemma df_drop_ok labels :
  Forall (fun i => (i < length rows)%nat) labels ->
  df_drop (range_indexed rows) labels =
    inr (filter (fun x => ¬ (x.1 ∈ labels)) (range_indexed rows)).
Proof.
  intros Hin. unfold df_drop.
  assert (Hall : forallb
            (fun i => existsb (Nat.eqb i) (df_index (range_indexed rows)))
            labels = true).
  { apply forallb_forall. intros i Hi. apply existsb_exists. exists i.
    split; [|apply Nat.eqb_refl].
    rewrite df_index_range_indexed. apply in_seq.
    rewrite List.Forall_forall in Hin. specialize (Hin i Hi). lia. }
  rewrite Hall. reflexivity.
Qed.

Lemma labelled_by_filter (P : nat * row -> Prop) `{forall x, Decision (P x)} df :
  labelled_by rows df -> labelled_by rows (filter P df).
Proof.
  unfold labelled_by. rewrite !Forall_forall. intros Hdf x Hx.
  apply list_elem_of_filter in Hx as [_ Hx]. apply Hdf, Hx.
Qed.

Lemma labelled_by_rows df :
  labelled_by rows df ->
  Forall2 (fun i r => rows !! i = Some r) (df_index df) (map snd df).
Proof.
  induction 1 as [|[i r] df Hx _ IH]; simpl; constructor; assumption.
Qed.

End WeakSplit.

Lemma df_index_filter (P : nat -> Prop) `{forall i, Decision (P i)}
    (df : dataframe) :
  df_index (filter (fun x => P x.1) df) = filter P (df_index df).
Proof.
  induction df as [|[i r] df IH]; [reflexivity|].
  unfold df_index in *. cbn [map fst].
  destruct (decide (P i)) as [Hi|Hi].
  - rewrite (filter_cons_True (fun x : nat * row => P x.1)) by exact Hi.
    rewrite (filter_cons_True P) by exact Hi.
    cbn [map fst]. rewrite IH. reflexivity.
  - rewrite (filter_cons_False (fun x : nat * row => P x.1)) by exact Hi.
    rewrite (filter_cons_False P) by exact Hi.
    exact IH.
Qed.

Lemma reset_index_rows df : map snd (reset_index df) = map snd df.
Proof. unfold reset_index. apply rows_of_range_indexed. Qed.

Lemma reset_index_index df : df_index (reset_index df) = seq 0 (length df).
Proof.
  unfold reset_index. rewrite df_index_range_indexed, length_map. reflexivity.
Qed.

Lemma reset_index_length df : length (reset_index df) = length df.
Proof.
  rewrite <- (length_map snd (reset_index df)), reset_index_rows.
  apply length_map.
Qed.

(** Distinct positions inside a range and the positions they leave out
    make up the range. *)
Lemma sampled_and_rest_positions n locs :
  NoDup locs -> Forall (fun i => (i < n)%nat) locs ->
  locs ++ filter (fun i => ¬ (i ∈ locs)) (seq 0 n) ≡ₚ seq 0 n.
Proof.
  intros Hnd Hin. apply NoDup_Permutation.
  - apply NoDup_app. split; [exact Hnd|]. split.
    + intros i Hi Hrest. apply list_elem_of_filter in Hrest as [Hno _].
      exact (Hno Hi).
    + apply NoDup_filter, NoDup_seq.
  - apply NoDup_seq.
  - intros i. rewrite elem_of_app, list_elem_of_filter, elem_of_seq.
    rewrite Forall_forall in Hin. split.
    + intros [Hi|[_ Hi]]; [specialize (Hin i Hi); lia | exact Hi].
    + intros Hi. destruct (decide (i ∈ locs)); [left|right]; auto.
Qed.

(** Rows read off at a permutation of the positions are a permutation of
    the rows. *)
Lemma rows_at_positions (rows : list row) positions found :
  Forall2 (fun i r => rows !! i = Some r) positions found ->
  positions ≡ₚ seq 0 (length rows) ->
  found ≡ₚ rows.
Proof.
  intros Hfound.
  assert (Hf : found = map (fun i => default [] (rows !! i)) positions).
  { induction Hfound as [|i r ps fs Hr _ IH]; [reflexivity|].
    simpl. rewrite Hr. simpl. f_equal. apply IH. }
  intros Hperm.
  assert (Hr : rows = map (fun i => default [] (rows !! i)) (seq 0 (length rows))).
  { apply list_eq. intros i. rewrite list_lookup_fmap.
    destruct (rows !! i) as [r|] eqn:Hi.
    - rewrite lookup_seq_lt by (eapply lookup_lt_Some, Hi). simpl.
      rewrite Hi. reflexivity.
    - rewrite lookup_seq_ge; [reflexivity|]. apply lookup_ge_None, Hi. }
  rewrite Hf. etransitivity; [apply Permutation_map, Hperm|].
  rewrite <- Hr. reflexivity.
Qed.

(** The split of a frame with a range index at distinct positions inside
    it: the sampled rows in the order drawn, the other rows in the order of
    the file, each frame under a fresh range index; every row goes to
    exactly one side. *)
Lemma split_weak_df_partition (rows : list row) locs :
  NoDup locs -> Forall (fun i => (i < length rows)%nat) locs ->
  let rest := filter (fun i => ¬ (i ∈ locs)) (seq 0 (length rows)) in
  exists train valid,
    split_weak_df (range_indexed rows) locs = inr (train, valid) /\
    Forall2 (fun i r => rows !! i = Some r) locs (map snd train) /\
    Forall2 (fun i r => rows !! i = Some r) rest (map snd valid) /\
    df_index train = seq 0 (length train) /\
    df_index valid = seq 0 (length valid) /\
    length train = length locs /\
    length valid = (length rows - length locs)%nat /\
    locs ++ rest ≡ₚ seq 0 (length rows) /\
    map snd train ++ map snd valid ≡ₚ rows.
Proof.
  intros Hnd Hin rest.
  destruct (df_take_ok rows locs Hin) as (sampled & Htake & Hidx & Hlab).
  pose proof (df_drop_ok rows locs Hin) as Hdrop.
  set (dropped := filter (fun x : nat * row => ¬ (x.1 ∈ locs)) (range_indexed rows))
    in Hdrop.
  assert (Hrest : df_index dropped = rest).
  { subst dropped rest. rewrite <- df_index_range_indexed.
    exact (df_index_filter (fun i => ¬ (i ∈ locs)) (range_indexed rows)). }
  assert (Hlabd : labelled_by rows dropped).
  { apply labelled_by_filter, range_indexed_labelled. }
  pose proof (sampled_and_rest_positions _ _ Hnd Hin) as Hperm. fold rest in Hperm.
  assert (Hlen_s : length sampled = length locs).
  { rewrite <- Hidx. unfold df_index. rewrite length_map. reflexivity. }
  assert (Hlen_d : length dropped = (length rows - length locs)%nat).
  { apply Permutation_length in Hperm.
    rewrite length_app, length_seq in Hperm.
    rewrite <- Hrest in Hperm. unfold df_index in Hperm.
    rewrite length_map in Hperm. lia. }
  exists (reset_index sampled), (reset_index dropped).
  split.
  { unfold split_weak_df. rewrite Htake, Hidx, Hdrop. reflexivity. }
  rewrite !reset_index_rows, !reset_index_index, !reset_index_length.
  pose proof (labelled_by_rows _ _ Hlab) as Hrows_s. rewrite Hidx in Hrows_s.
  pose proof (labelled_by_rows _ _ Hlabd) as Hrows_d. rewrite Hrest in Hrows_d.
  repeat (split; [assumption || reflexivity|]).
  eapply rows_at_positions; [|exact Hperm].
  apply Forall2_app; assumption.
Qed.

(** The count pandas draws, in binary64: 0.7 of 45 rows is 31 rows, where
    the exact product 31.5 would round to 32. *)
Lemma pandas_sample_size_examples :
  pandas_sample_size (9 # 10) 100 = Some 90%nat /\
  pandas_sample_size (7 # 10) 45 = Some 31%nat /\
  sample_size (7 # 10) 45 = 32%nat /\
  pandas_sample_size (1 # 2) 5 = Some 2%nat /\
  pandas_sample_size (1 # 2) 7 = Some 4%nat.
Proof. repeat split; vm_compute; reflexivity. Qed.

Section WeakSplitOfRun.
Context {W : Type} `{Externals W} `{!SeededSampling W}.

(** C4. The weak split is the function [split_weak_df] of the rows of the
    weak TSV and of the positions pandas draws for the fraction
    [training.weak_split] under the seed [training.seed]: the train frame
    holds the rows at the drawn positions, [round(weak_split * rows)] of
    them in binary64 arithmetic, the validation frame the rows at the other
    positions, both under a fresh range index; the drawn positions and the
    others are disjoint and together are all positions, so that the two
    frames together hold the rows of the file; and any other run, whatever
    the rest of its configuration and its world, that has the same fraction
    and seed and reads the same rows has the same split. Pandas is taken at
    its word: [pandas_sample_contract] for what a sample is, and
    [SeededSampling] for a draw under an integer seed being reproducible. *)
Theorem weak_split_is_seeded_partition config log_dir gpus resume fdr
    (st st' : state W) L training frac seed :
  single_run_locals config log_dir gpus resume fdr st = (inr L, st') ->
  getitem config "training" = inr training ->
  getitem training "weak_split" = inr (VFloat frac) ->
  getitem training "seed" = inr (VInt seed) ->
  let rows := map snd (l_weak_df L) in
  let n := length rows in
  let locs := df_sample (VFloat frac) (VInt seed) n (world st) in
  let rest := filter (fun i => ¬ (i ∈ locs)) (seq 0 n) in
  pandas_sample_contract frac n locs ->
  split_weak_df (range_indexed rows) locs
    = inr (l_train_weak_df L, l_valid_weak_df L) /\
  Forall2 (fun i r => rows !! i = Some r) locs (map snd (l_train_weak_df L)) /\
  Forall2 (fun i r => rows !! i = Some r) rest (map snd (l_valid_weak_df L)) /\
  df_index (l_train_weak_df L) = seq 0 (length (l_train_weak_df L)) /\
  df_index (l_valid_weak_df L) = seq 0 (length (l_valid_weak_df L)) /\
  pandas_sample_size frac n = Some (length (l_train_weak_df L)) /\
  length (l_valid_weak_df L) = (n - length (l_train_weak_df L))%nat /\
  locs ++ rest ≡ₚ seq 0 n /\
  map snd (l_train_weak_df L) ++ map snd (l_valid_weak_df L) ≡ₚ rows /\
  (forall config2 log_dir2 gpus2 resume2 fdr2 (st2 st2' : state W) L2 training2,
     single_run_locals config2 log_dir2 gpus2 resume2 fdr2 st2 = (inr L2, st2') ->
     getitem config2 "training" = inr training2 ->
     getitem training2 "weak_split" = inr (VFloat frac) ->
     getitem training2 "seed" = inr (VInt seed) ->
     map snd (l_weak_df L2) = rows ->
     l_train_weak_df L2 = l_train_weak_df L /\
     l_valid_weak_df L2 = l_valid_weak_df L).
Proof.
  intros Hrun Htr Hfrac Hseed rows n locs rest (Hnd & Hin & Hlen).
  destruct (locals_weak_split _ _ _ _ _ _ _ _ Hrun)
    as (data & weak_tsv & training' & ws & seed' & _ & _ & Htr' & Hws & Hseed'
        & Hdf & Hsplit & _).
  rewrite Htr in Htr'. inversion Htr'. subst training'.
  rewrite Hfrac in Hws. inversion Hws. subst ws.
  rewrite Hseed in Hseed'. inversion Hseed'. subst seed'.
  assert (Hrows : l_weak_df L = range_indexed rows).
  { subst rows. rewrite Hdf at 1. rewrite Hdf, rows_of_range_indexed. reflexivity. }
  assert (Hn : length (l_weak_df L) = n).
  { subst n rows. rewrite length_map. reflexivity. }
  rewrite Hn in Hsplit. fold locs in Hsplit. rewrite Hrows in Hsplit.
  destruct (split_weak_df_partition rows locs Hnd Hin)
    as (train & valid & Hsp & Htrain & Hvalid & Hit & Hiv & Hlt & Hlv & Hpos
        & Hperm).
  rewrite Hsplit in Hsp. inversion Hsp. subst train valid.
  fold n in Hlv, Hpos. fold rest in Hvalid, Hpos.
  rewrite <- Hlt in Hlen, Hlv.
  repeat (split; [assumption|]).
  intros config2 log_dir2 gpus2 resume2 fdr2 st2 st2' L2 training2
    Hrun2 Htr2 Hfrac2 Hseed2 Hrows2.
  destruct (locals_weak_split _ _ _ _ _ _ _ _ Hrun2)
    as (data2 & weak_tsv2 & training2' & ws2 & seed2 & _ & _ & Htr2' & Hws2
        & Hseed2' & Hdf2 & Hsplit2 & _).
  rewrite Htr2 in Htr2'. inversion Htr2'. subst training2'.
  rewrite Hfrac2 in Hws2. inversion Hws2. subst ws2.
  rewrite Hseed2 in Hseed2'. inversion Hseed2'. subst seed2.
  assert (Hrows2' : l_weak_df L2 = range_indexed rows).
  { rewrite <- Hrows2. rewrite Hdf2 at 1. rewrite Hdf2, rows_of_range_indexed.
    reflexivity. }
  assert (Hn2 : length (l_weak_df L2) = n).
  { subst n. rewrite <- Hrows2, length_map. reflexivity. }
  rewrite Hn2, (df_sample_seeded _ _ _ (world st2) (world st)) in Hsplit2.
  fold locs in Hsplit2. rewrite Hrows2', Hsplit in Hsplit2.
  inversion Hsplit2. split; reflexivity.
Qed.

End WeakSplitOfRun.

(** The laboratory run: a weak TSV of 100 rows, a fraction of 0.9 and the
    seed 42 give 90 train rows and 10 validation rows; a fast development
    run with another log directory and other devices has the same split. *)
Lemma weak_split_is_seeded_partition_witness :
  exists L st' L2 st2',
    single_run_locals Lab.config "./exp/2021_baseline" (VStr "0") None false Lab.st0
      = (inr L, st') /\
    length (l_weak_df L) = 100%nat /\
    length (l_train_weak_df L) = 90%nat /\
    length (l_valid_weak_df L) = 10%nat /\
    map snd (l_train_weak_df L) ++ map snd (l_valid_weak_df L)
      ≡ₚ map snd (l_weak_df L) /\
    single_run_locals Lab.config "./exp/again" (VStr "1") None true Lab.st0
      = (inr L2, st2') /\
    l_train_weak_df L2 = l_train_weak_df L /\
    l_valid_weak_df L2 = l_valid_weak_df L.
Proof.
  destruct (returns_with_inr
              (single_run_locals Lab.config "./exp/2021_baseline" (VStr "0") None
                 false Lab.st0)
              (fun L => Nat.eqb (length (l_weak_df L)) 100))
    as (L & st' & Hrun & Hn); [vm_compute; reflexivity|].
  apply Nat.eqb_eq in Hn.
  assert (Hn' : length (map snd (l_weak_df L)) = 100%nat).
  { rewrite length_map. exact Hn. }
  destruct (returns_with_inr
              (single_run_locals Lab.config "./exp/again" (VStr "1") None
                 true Lab.st0)
              (fun L2 => bool_decide (map snd (l_weak_df L2) = Lab.clip_rows "weak_" 100)))
    as (L2 & st2' & Hrun2 & Hrows2); [vm_compute; reflexivity|].
  apply bool_decide_eq_true_1 in Hrows2.
  assert (Hrows : map snd (l_weak_df L) = Lab.clip_rows "weak_" 100).
  { destruct (locals_weak_split _ _ _ _ _ _ _ _ Hrun)
      as (data & weak_tsv & training' & ws & seed' & Hd & Hw & _ & _ & _
          & Hdf & _).
    change (@inr exn pyval Lab.data_section = inr data) in Hd.
    inversion Hd. subst data.
    change (@inr exn pyval (VStr "data/weak.tsv") = inr weak_tsv) in Hw.
    inversion Hw. subst weak_tsv.
    rewrite Hdf, rows_of_range_indexed. reflexivity. }
  destruct (weak_split_is_seeded_partition Lab.config "./exp/2021_baseline"
              (VStr "0") None false Lab.st0 st' L (Lab.training_section 1 42)
              (9 # 10) 42 Hrun eq_refl eq_refl eq_refl)
    as (_ & _ & _ & _ & _ & Hlt & Hlv & _ & Hperm & Hsame).
  { rewrite Hn'. split; [|split].
    - apply (bool_decide_unpack _). vm_compute. exact I.
    - apply (bool_decide_unpack _). vm_compute. exact I.
    - vm_compute. reflexivity. }
  rewrite Hn' in Hlt, Hlv.
  change (Some 90%nat = Some (length (l_train_weak_df L))) in Hlt.
  inversion Hlt as [Hlt']. rewrite <- Hlt' in Hlv.
  destruct (Hsame Lab.config "./exp/again" (VStr "1") None true Lab.st0 st2' L2
              (Lab.training_section 1 42) Hrun2 eq_refl eq_refl eq_refl)
    as (Ht & Hv); [rewrite Hrows2, Hrows; reflexivity|].
  exists L, st', L2, st2'. repeat split; try assumption.
  symmetry. exact Hlt'.
Defined.

(** ** More on the epoch length *)

Section EpochLengthBounds.
Context {W : Type} `{Externals W}.

(** The epoch length for integer settings, whatever the divisors: the
    first zero divisor raises. *)
Lemma compute_epoch_len_eval d0 d1 d2 config (s : state W) training bs
    b0 b1 b2 acc :
  getitem config "training" = inr training ->
  getitem training "batch_size" = inr (VList bs) ->
  bs !! 0%nat = Some (VInt b0) ->
  bs !! 1%nat = Some (VInt b1) ->
  bs !! 2%nat = Some (VInt b2) ->
  getitem training "accumulate_batches" = inr (VInt acc) ->
  compute_epoch_len [d0; d1; d2] config s =
    (if (b0 * acc =? 0) || (b1 * acc =? 0) || (b2 * acc =? 0)
     then inl ZeroDivisionError
     else inr (spec_epoch_len
                 [dataset_len d0 (world s); dataset_len d1 (world s);
                  dataset_len d2 (world s)] [b0; b1; b2] acc), s).
Proof.
  intros Htr Hbs Hb0 Hb1 Hb2 Hacc.
  destruct (b0 * acc =? 0) eqn:E0; [|destruct (b1 * acc =? 0) eqn:E1;
    [|destruct (b2 * acc =? 0) eqn:E2]]; simpl.
  4: { apply Z.eqb_neq in E0, E1, E2.
       eapply compute_epoch_len_ok; eassumption. }
  all: unfold compute_epoch_len; simpl length; simpl seq; simpl comprehension.
  all: unfold bind at 1; unfold bind at 1.
  all: rewrite (subset_batches_eval [d0; d1; d2] config 0%nat s d0 _ _ _ _
                  eq_refl Htr Hbs Hb0 Hacc), E0; try reflexivity.
  all: unfold bind at 1; unfold bind at 1.
  all: rewrite (subset_batches_eval [d0; d1; d2] config 1%nat s d1 _ _ _ _
                  eq_refl Htr Hbs Hb1 Hacc), E1; try reflexivity.
  all: unfold bind at 1; unfold bind at 1.
  all: rewrite (subset_batches_eval [d0; d1; d2] config 2%nat s d2 _ _ _ _
                  eq_refl Htr Hbs Hb2 Hacc), E2; reflexivity.
Qed.

(** X3. A zero divisor in the epoch length. For integer batch sizes and
    accumulation factor, the computation of lines 144-153 raises
    [ZeroDivisionError] exactly when a batch size times the accumulation
    factor is zero, and otherwise returns. *)
Theorem compute_epoch_len_zero_division d0 d1 d2 config (s : state W)
    training bs b0 b1 b2 acc :
  getitem config "training" = inr training ->
  getitem training "batch_size" = inr (VList bs) ->
  bs !! 0%nat = Some (VInt b0) ->
  bs !! 1%nat = Some (VInt b1) ->
  bs !! 2%nat = Some (VInt b2) ->
  getitem training "accumulate_batches" = inr (VInt acc) ->
  (compute_epoch_len [d0; d1; d2] config s = (inl ZeroDivisionError, s) <->
   b0 * acc = 0 \/ b1 * acc = 0 \/ b2 * acc = 0) /\
  ((exists n, compute_epoch_len [d0; d1; d2] config s = (inr n, s)) <->
   b0 * acc <> 0 /\ b1 * acc <> 0 /\ b2 * acc <> 0).
Proof.
  intros Htr Hbs Hb0 Hb1 Hb2 Hacc.
  rewrite (compute_epoch_len_eval _ _ _ _ _ _ _ _ _ _ _
             Htr Hbs Hb0 Hb1 Hb2 Hacc).
  destruct (b0 * acc =? 0) eqn:E0; destruct (b1 * acc =? 0) eqn:E1;
    destruct (b2 * acc =? 0) eqn:E2; simpl;
    rewrite ?Z.eqb_eq, ?Z.eqb_neq in *.
  all: split; split.
  all: try (intros _; auto; fail).
  all: try (intros [n Hn]; discriminate Hn).
  all: try (intros (? & ? & ?); contradiction).
  all: try (intros Habs; discriminate Habs).
  all: try (intros [?|[?|?]]; contradiction).
  all: try (intros _; eexists; reflexivity).
Qed.

(** X4. A batch-size list that is too short. With fewer than three integer
    batch sizes (and no zero divisor among them) the comprehension indexes
    past the end of the list and raises [IndexError]. *)
Theorem compute_epoch_len_short_batch_sizes d0 d1 d2 config (s : state W)
    training bs acc :
  getitem config "training" = inr training ->
  getitem training "batch_size" = inr (VList bs) ->
  getitem training "accumulate_batches" = inr (VInt acc) ->
  (length bs < 3)%nat ->
  Forall (fun v => exists b, v = VInt b /\ b * acc <> 0) bs ->
  compute_epoch_len [d0; d1; d2] config s = (inl IndexError, s).
Proof.
  intros Htr Hbs Hacc Hlen Hall.
  assert (Hmiss : forall indx d, [d0; d1; d2] !! indx = Some d ->
            bs !! indx = None ->
            subset_batches [d0; d1; d2] config indx s = (inl IndexError, s)).
  { intros indx d Hd Hnone. unfold subset_batches. rewrite Hd.
    unfold bind at 1. unfold query at 1.
    rewrite (bind_ok _ _ _ _ _ (getitem2_ok _ _ _ s _ _ Htr Hbs)).
    unfold bind, lift. simpl. rewrite Hnone. reflexivity. }
  assert (Hhit : forall indx d b, [d0; d1; d2] !! indx = Some d ->
            bs !! indx = Some (VInt b) -> b * acc <> 0 ->
            subset_batches [d0; d1; d2] config indx s =
              (inr (dataset_len d (world s) / (b * acc)), s)).
  { intros indx d b Hd Hb Hz.
    rewrite (subset_batches_eval _ _ _ s d _ _ _ _ Hd Htr Hbs Hb Hacc).
    apply Z.eqb_neq in Hz. rewrite Hz. reflexivity. }
  unfold compute_epoch_len. simpl length. simpl seq. simpl comprehension.
  destruct bs as [|v0 [|v1 [|v2 bs]]]; simpl in Hlen; try lia.
  - unfold bind at 1. unfold bind at 1.
    rewrite (Hmiss 0%nat d0 eq_refl eq_refl). reflexivity.
  - inversion Hall as [|? ? (b0 & -> & Hz0) _]. subst.
    unfold bind at 1. unfold bind at 1.
    rewrite (Hhit 0%nat d0 b0 eq_refl eq_refl Hz0).
    unfold bind at 1. unfold bind at 1.
    rewrite (Hmiss 1%nat d1 eq_refl eq_refl). reflexivity.
  - inversion Hall as [|? ? (b0 & -> & Hz0) Hall']. subst.
    inversion Hall' as [|? ? (b1 & -> & Hz1) _]. subst.
    unfold bind at 1. unfold bind at 1.
    rewrite (Hhit 0%nat d0 b0 eq_refl eq_refl Hz0).
    unfold bind at 1. unfold bind at 1.
    rewrite (Hhit 1%nat d1 b1 eq_refl eq_refl Hz1).
    unfold bind at 1. unfold bind at 1.
    rewrite (Hmiss 2%nat d2 eq_refl eq_refl). reflexivity.
Qed.

(** The minimum of floors is the largest number of steps every subset can
    supply. *)
Lemma spec_epoch_len_optimal s0 s1 s2 b0 b1 b2 acc :
  0 <= s0 -> 0 <= s1 -> 0 <= s2 ->
  0 < b0 -> 0 < b1 -> 0 < b2 -> 0 < acc ->
  let e := spec_epoch_len [s0; s1; s2] [b0; b1; b2] acc in
  0 <= e /\
  (e * (b0 * acc) <= s0 /\ e * (b1 * acc) <= s1 /\ e * (b2 * acc) <= s2) /\
  (s0 < (e + 1) * (b0 * acc) \/ s1 < (e + 1) * (b1 * acc) \/
   s2 < (e + 1) * (b2 * acc)).
Proof.
  intros Hs0 Hs1 Hs2 Hb0 Hb1 Hb2 Hacc e. subst e.
  unfold spec_epoch_len. simpl.
  rewrite !spec_batches_per_epoch_div by nia.
  assert (Hd0 : 0 < b0 * acc) by nia.
  assert (Hd1 : 0 < b1 * acc) by nia.
  assert (Hd2 : 0 < b2 * acc) by nia.
  pose proof (Z.div_pos s0 _ Hs0 Hd0).
  pose proof (Z.div_pos s1 _ Hs1 Hd1).
  pose proof (Z.div_pos s2 _ Hs2 Hd2).
  pose proof (Z.mul_div_le s0 _ Hd0).
  pose proof (Z.mul_div_le s1 _ Hd1).
  pose proof (Z.mul_div_le s2 _ Hd2).
  pose proof (Z.mul_succ_div_gt s0 _ Hd0).
  pose proof (Z.mul_succ_div_gt s1 _ Hd1).
  pose proof (Z.mul_succ_div_gt s2 _ Hd2).
  set (q0 := s0 / (b0 * acc)) in *.
  set (q1 := s1 / (b1 * acc)) in *.
  set (q2 := s2 / (b2 * acc)) in *.
  set (m := Z.min q1 (Z.min q2 q0)).
  assert (Hle : m <= q0 /\ m <= q1 /\ m <= q2) by (subst m; lia).
  assert (Hm : m = q0 \/ m = q1 \/ m = q2) by (subst m; lia).
  clearbody m q0 q1 q2.
  destruct Hle as (Hle0 & Hle1 & Hle2).
  split; [lia|]. split; [repeat split; nia|].
  destruct Hm as [-> | [-> | ->]]; [left | right; left | right; right]; nia.
Qed.

(** X5. The epoch length is the largest number of optimization steps that
    every subset can supply. For positive integer batch sizes and
    accumulation factor and non-negative subset sizes, each subset holds at
    least [epoch_len * batch_size * accumulate_batches] items, and some
    subset holds fewer than [(epoch_len + 1) * batch_size *
    accumulate_batches]. *)
Theorem single_run_epoch_len_optimal config log_dir gpus resume fdr
    (st st' : state W) L training bs b0 b1 b2 acc :
  single_run_locals config log_dir gpus resume fdr st = (inr L, st') ->
  getitem config "training" = inr training ->
  getitem training "batch_size" = inr (VList bs) ->
  bs !! 0%nat = Some (VInt b0) ->
  bs !! 1%nat = Some (VInt b1) ->
  bs !! 2%nat = Some (VInt b2) ->
  getitem training "accumulate_batches" = inr (VInt acc) ->
  0 < b0 -> 0 < b1 -> 0 < b2 -> 0 < acc ->
  let size d := dataset_len d (world st) in
  0 <= size (l_synth_set L) ->
  0 <= size (l_weak_set L) ->
  0 <= size (l_unlabeled_set L) ->
  let e := l_epoch_len L in
  0 <= e /\
  (e * (b0 * acc) <= size (l_synth_set L) /\
   e * (b1 * acc) <= size (l_weak_set L) /\
   e * (b2 * acc) <= size (l_unlabeled_set L)) /\
  (size (l_synth_set L) < (e + 1) * (b0 * acc) \/
   size (l_weak_set L) < (e + 1) * (b1 * acc) \/
   size (l_unlabeled_set L) < (e + 1) * (b2 * acc)).
Proof.
  intros Hrun Htr Hbs Hb0 Hb1 Hb2 Hacc Hp0 Hp1 Hp2 Hpa size Hl0 Hl1 Hl2 e.
  destruct (locals_epoch_len _ _ _ _ _ _ _ _ _ _ _ _ _ _
              Hrun Htr Hbs Hb0 Hb1 Hb2 Hacc) as (Htot & _ & Hel).
  subst e. rewrite Hel, Htot. simpl map.
  apply spec_epoch_len_optimal; assumption.
Qed.

End EpochLengthBounds.

(** An accumulation factor of 0 in the laboratory configuration. *)
Lemma compute_epoch_len_zero_division_witness :
  compute_epoch_len [ConcatDataset []; ConcatDataset []; ConcatDataset []]
    (Lab.config_with 0 42) Lab.st0 = (inl ZeroDivisionError, Lab.st0).
Proof.
  apply (compute_epoch_len_zero_division (ConcatDataset []) (ConcatDataset [])
           (ConcatDataset []) (Lab.config_with 0 42) Lab.st0
           (Lab.training_section 0 42) [VInt 12; VInt 12; VInt 24] 12 12 24 0
           eq_refl eq_refl eq_refl eq_refl eq_refl eq_refl).
  left. reflexivity.
Defined.

(** Two batch sizes for three subsets. *)
Lemma compute_epoch_len_short_batch_sizes_witness :
  compute_epoch_len [ConcatDataset []; ConcatDataset []; ConcatDataset []]
    LabMore.short_config Lab.st0 = (inl IndexError, Lab.st0).
Proof.
  apply (compute_epoch_len_short_batch_sizes _ _ _ LabMore.short_config Lab.st0
           LabMore.short_training [VInt 12; VInt 12] 1 eq_refl eq_refl eq_refl).
  - simpl. lia.
  - repeat constructor; eexists; (split; [reflexivity | lia]).
Defined.

(** The laboratory run: 7 steps of 12, 12 and 24 fit in 120, 90 and 240
    clips, and 8 steps of 12 do not fit in the 90 weak clips. *)
Lemma single_run_epoch_len_optimal_witness :
  exists L st',
    single_run_locals Lab.config "./exp/2021_baseline" (VStr "0") None false Lab.st0
      = (inr L, st') /\
    0 <= l_epoch_len L /\
    l_epoch_len L * (12 * 1) <= dataset_len (l_weak_set L) Lab.w0.
Proof.
  destruct (returns_with_inr
              (single_run_locals Lab.config "./exp/2021_baseline" (VStr "0") None
                 false Lab.st0)
              (fun L =>
                 (0 <=? dataset_len (l_synth_set L) Lab.w0) &&
                 (0 <=? dataset_len (l_weak_set L) Lab.w0) &&
                 (0 <=? dataset_len (l_unlabeled_set L) Lab.w0)))
    as (L & st' & Hrun & Hsizes); [vm_compute; reflexivity|].
  apply andb_prop in Hsizes as [Hsizes Hl2].
  apply andb_prop in Hsizes as [Hl0 Hl1].
  apply Z.leb_le in Hl0, Hl1, Hl2.
  destruct (single_run_epoch_len_optimal Lab.config "./exp/2021_baseline"
              (VStr "0") None false Lab.st0 st' L (Lab.training_section 1 42)
              [VInt 12; VInt 12; VInt 24] 12 12 24 1 Hrun)
    as (Hpos & (_ & Hweak & _) & _);
    try reflexivity; try assumption.
  exists L, st'. repeat split; assumption.
Defined.

(** ** More on what [single_run] constructs *)

(** The last component of a path has no slash, and together with the part
    up to the last slash it is the path. *)
Lemma split_last_no_slash p : has_slash (split_last p) = false.
Proof.
  induction p as [|c r IH]; [reflexivity|]. simpl.
  destruct (has_slash r) eqn:Hr; [exact IH|].
  destruct (is_slash c) eqn:Hc; [exact Hr|].
  simpl. rewrite Hc, Hr. reflexivity.
Qed.

Lemma upto_last_slash_split_last p :
  upto_last_slash p +:+ split_last p = p.
Proof.
  induction p as [|c r IH]; [reflexivity|].
  cbn [upto_last_slash split_last].
  destruct (has_slash r).
  - change (String c (upto_last_slash r +:+ split_last r) = String c r).
    rewrite IH. reflexivity.
  - destruct (is_slash c); reflexivity.
Qed.

(** A path without a slash is its own last component and has an empty
    directory name. *)
Lemma no_slash_dirname_split_last p :
  has_slash p = false -> dirname p = EmptyString /\ split_last p = p.
Proof.
  intros Hp. destruct p as [|c r]; [split; reflexivity|].
  cbn [has_slash] in Hp. apply orb_false_elim in Hp as [Hc Hr].
  unfold dirname. cbn [upto_last_slash split_last]. rewrite Hr, Hc.
  split; reflexivity.
Qed.

Section MoreConstruction.
Context {W : Type} `{Externals W}.

(** X6. One encoder, one padding length. The six dataset views share the
    encoder built at the start of the run, and each is padded to
    [data.audio_max_len], the audio length the encoder was given; the
    training module receives that same encoder. *)
Theorem single_run_views_share_encoder config log_dir gpus resume fdr
    (st st' : state W) L :
  single_run_locals config log_dir gpus resume fdr st = (inr L, st') ->
  exists data audio_max_len,
    getitem config "data" = inr data /\
    getitem data "audio_max_len" = inr audio_max_len /\
    enc_audio_len (l_encoder L) = audio_max_len /\
    enc_labels (l_encoder L) = map fst classes_labels /\
    Forall (fun d => view_encoder d = Some (l_encoder L) /\
                     view_pad_to d = Some audio_max_len) (views L) /\
    task_encoder (l_desed_training L) = l_encoder L.
Proof.
  intros Hrun. destruct fdr; locals_inv Hrun; simpl.
  all: do 2 eexists; repeat (split; [eassumption || reflexivity|]).
  all: split; [|reflexivity].
  all: unfold views; simpl; repeat constructor.
Qed.

(** X7. One order of the training subsets. The training dataset is the
    concatenation of the synthetic, weak-train and unlabeled views in that
    order, the batch sampler holds one random sampler per view in the same
    order, and its batch sizes are the list [training.batch_size] that the
    epoch length indexes by position. *)
Theorem single_run_train_subsets_order config log_dir gpus resume fdr
    (st st' : state W) L :
  single_run_locals config log_dir gpus resume fdr st = (inr L, st') ->
  exists training batch_sizes,
    getitem config "training" = inr training /\
    getitem training "batch_size" = inr batch_sizes /\
    l_tot_train_data L = [l_synth_set L; l_weak_set L; l_unlabeled_set L] /\
    l_train_dataset L = ConcatDataset (l_tot_train_data L) /\
    map data_source (cbs_samplers (l_batch_sampler L)) = l_tot_train_data L /\
    cbs_batch_sizes (l_batch_sampler L) = batch_sizes /\
    task_train_data (l_desed_training L) = l_train_dataset L /\
    task_train_sampler (l_desed_training L) = l_batch_sampler L.
Proof.
  intros Hrun. destruct fdr; locals_inv Hrun; simpl.
  all: do 2 eexists; repeat (split; [eassumption || reflexivity|]).
  all: reflexivity.
Qed.

(** X8. The configuration the training module keeps. [single_run] sets
    [log_dir] in the configuration, replacing an entry of that name, and
    leaves every other entry as it was; the training module receives the
    updated configuration. *)
Theorem single_run_records_log_dir config log_dir gpus resume fdr
    (st st' : state W) L :
  single_run_locals config log_dir gpus resume fdr st = (inr L, st') ->
  exists entries,
    config = VDict entries /\
    l_config L = VDict (<["log_dir" := VStr log_dir]> entries) /\
    task_hparams (l_desed_training L) = l_config L /\
    getitem (l_config L) "log_dir" = inr (VStr log_dir) /\
    (forall k, k <> "log_dir" -> getitem (l_config L) k = getitem config k).
Proof.
  intros Hrun. unfold single_run_locals in Hrun.
  destruct fdr; run_inv Hrun; simpl.
  all: match goal with
       | Hup : dict_update1 ?c _ _ = inr _ |- _ =>
           destruct c; simpl in Hup; try discriminate Hup;
           inversion Hup; subst
       end.
  all: eexists; split; [reflexivity|]; split; [reflexivity|].
  all: split; [reflexivity|]; split.
  all: try (simpl; rewrite lookup_insert_eq; reflexivity).
  all: intros k Hk; simpl; rewrite lookup_insert_ne by congruence; reflexivity.
Qed.

(** X9. A configuration that is not a mapping. [config.update] raises
    [AttributeError] before anything is read or printed. *)
Theorem single_run_config_not_a_mapping config log_dir gpus resume tsd fdr
    (st : state W) :
  is_dict config = false ->
  single_run config log_dir gpus resume tsd fdr st = (inl AttributeError, st).
Proof.
  intros Hnot. apply single_run_locals_raise.
  unfold single_run_locals.
  destruct config; try discriminate Hnot; reflexivity.
Qed.

(** X10. The logger and the fixed settings of the trainer. The logger is
    saved under the directory name of [log_dir] with the last component of
    [log_dir] as its name, a name that holds no slash and that, appended to
    the part of [log_dir] up to its last slash, gives [log_dir] back. The
    trainer gets that logger, the [gpus] and [checkpoint_resume] arguments
    unchanged, early stopping and a single best checkpoint on
    "val/obj_metric", no sanity validation steps, the accumulation factor
    that the epoch length uses, and [None] as backend when
    [training.backend] is absent. *)
Theorem single_run_logger_and_trainer config log_dir devices resume fdr
    (st st' : state W) L :
  single_run_locals config log_dir devices resume fdr st = (inr L, st') ->
  l_logger L = {| tb_save_dir := dirname log_dir; tb_name := split_last log_dir |} /\
  has_slash (tb_name (l_logger L)) = false /\
  upto_last_slash log_dir +:+ tb_name (l_logger L) = log_dir /\
  (has_slash log_dir = false ->
   tb_save_dir (l_logger L) = EmptyString /\ tb_name (l_logger L) = log_dir) /\
  logger (l_trainer L) = l_logger L /\
  gpus (l_trainer L) = devices /\
  resume_from_checkpoint (l_trainer L) = resume /\
  num_sanity_val_steps (l_trainer L) = 0 /\
  exists training patience accumulate checkpoint_dir entries,
    getitem config "training" = inr training /\
    training = VDict entries /\
    getitem training "early_stop_patience" = inr patience /\
    getitem training "accumulate_batches" = inr accumulate /\
    callbacks (l_trainer L) =
      [EarlyStopping "val/obj_metric" patience true;
       ModelCheckpoint checkpoint_dir "val/obj_metric" 1] /\
    accumulate_grad_batches (l_trainer L) = accumulate /\
    distributed_backend (l_trainer L) = default VNone (entries !! "backend").
Proof.
  intros Hrun. unfold single_run_locals in Hrun.
  destruct fdr; run_inv Hrun.
  all: match goal with
       | Hup : dict_update1 _ _ _ = inr _ |- _ =>
           pose proof (getitem_update_eq _ _ _ _ Hup) as Hld;
           original_config Hup
       end.
  all: repeat match goal with
       | Hs : exists _, _ /\ _ |- _ => destruct Hs as (? & ? & ?)
       end.
  all: same_reads; simpl.
  all: split; [reflexivity|].
  all: split; [apply split_last_no_slash|].
  all: split; [apply upto_last_slash_split_last|].
  all: split; [apply no_slash_dirname_split_last|].
  all: repeat (split; [reflexivity|]).
  all: match goal with
       | Hg : dict_get ?t "backend" = inr _ |- _ =>
           destruct t; simpl in Hg; try discriminate Hg; inversion Hg; subst
       end.
  all: do 5 eexists; repeat (split; [eassumption || reflexivity|]).
  all: reflexivity.
Qed.

End MoreConstruction.

(** The laboratory run shares one encoder among its six views. *)
Lemma single_run_views_share_encoder_witness :
  exists L st',
    single_run_locals Lab.config "./exp/2021_baseline" (VStr "0") None false Lab.st0
      = (inr L, st') /\
    enc_audio_len (l_encoder L) = VInt 10 /\
    Forall (fun d => view_encoder d = Some (l_encoder L) /\
                     view_pad_to d = Some (VInt 10)) (views L).
Proof.
  destruct (returns_with_inr
              (single_run_locals Lab.config "./exp/2021_baseline" (VStr "0") None
                 false Lab.st0) (fun _ => true))
    as (L & st' & Hrun & _); [vm_compute; reflexivity|].
  destruct (single_run_views_share_encoder _ _ _ _ _ _ _ _ Hrun)
    as (data & amx & Hdata & Hamx & Henc & _ & Hviews & _).
  change (@inr exn pyval Lab.data_section = inr data) in Hdata.
  injection Hdata as <-.
  change (@inr exn pyval (VInt 10) = inr amx) in Hamx.
  injection Hamx as Hamx. rewrite <- Hamx in Henc, Hviews.
  exists L, st'. repeat split; assumption.
Defined.

(** The laboratory run keeps one order of its training subsets. *)
Lemma single_run_train_subsets_order_witness :
  exists L st',
    single_run_locals Lab.config "./exp/2021_baseline" (VStr "0") None false Lab.st0
      = (inr L, st') /\
    l_train_dataset L =
      ConcatDataset [l_synth_set L; l_weak_set L; l_unlabeled_set L] /\
    map data_source (cbs_samplers (l_batch_sampler L)) =
      [l_synth_set L; l_weak_set L; l_unlabeled_set L] /\
    cbs_batch_sizes (l_batch_sampler L) = VList [VInt 12; VInt 12; VInt 24].
Proof.
  destruct (returns_with_inr
              (single_run_locals Lab.config "./exp/2021_baseline" (VStr "0") None
                 false Lab.st0) (fun _ => true))
    as (L & st' & Hrun & _); [vm_compute; reflexivity|].
  destruct (single_run_train_subsets_order _ _ _ _ _ _ _ _ Hrun)
    as (training & bs & Htr & Hbs & Htot & Hds & Hsamplers & Hsizes & _).
  change (@inr exn pyval (Lab.training_section 1 42) = inr training) in Htr.
  injection Htr as <-.
  change (@inr exn pyval (VList [VInt 12; VInt 12; VInt 24]) = inr bs) in Hbs.
  injection Hbs as Hbs. rewrite <- Hbs in Hsizes.
  exists L, st'. rewrite Hds, Hsamplers, Htot. repeat split; assumption.
Defined.

(** The laboratory run records its log directory. *)
Lemma single_run_records_log_dir_witness :
  exists L st',
    single_run_locals Lab.config "./exp/2021_baseline" (VStr "0") None false Lab.st0
      = (inr L, st') /\
    getitem (l_config L) "log_dir" = inr (VStr "./exp/2021_baseline") /\
    getitem (l_config L) "opt" = inr Lab.opt_section /\
    task_hparams (l_desed_training L) = l_config L.
Proof.
  destruct (returns_with_inr
              (single_run_locals Lab.config "./exp/2021_baseline" (VStr "0") None
                 false Lab.st0) (fun _ => true))
    as (L & st' & Hrun & _); [vm_compute; reflexivity|].
  destruct (single_run_records_log_dir _ _ _ _ _ _ _ _ Hrun)
    as (entries & _ & _ & Htask & Hld & Hother).
  exists L, st'. split; [exact Hrun|]. split; [exact Hld|].
  split; [|exact Htask].
  rewrite (Hother "opt") by discriminate. reflexivity.
Defined.

(** A configuration file that holds a list. *)
Lemma single_run_config_not_a_mapping_witness :
  single_run (VList [VInt 1]) "./exp/2021_baseline" (VStr "0") None VNone false
    Lab.st0 = (inl AttributeError, Lab.st0).
Proof.
  apply (single_run_config_not_a_mapping (VList [VInt 1])). reflexivity.
Defined.

(** The logger of the laboratory run is saved under ./exp as 2021_baseline. *)
Lemma single_run_logger_and_trainer_witness :
  exists L st',
    single_run_locals Lab.config "./exp/2021_baseline" (VStr "0") None false Lab.st0
      = (inr L, st') /\
    l_logger L = {| tb_save_dir := "./exp"; tb_name := "2021_baseline" |} /\
    logger (l_trainer L) = l_logger L /\
    resume_from_checkpoint (l_trainer L) = None /\
    num_sanity_val_steps (l_trainer L) = 0.
Proof.
  destruct (returns_with_inr
              (single_run_locals Lab.config "./exp/2021_baseline" (VStr "0") None
                 false Lab.st0) (fun _ => true))
    as (L & st' & Hrun & _); [vm_compute; reflexivity|].
  destruct (single_run_logger_and_trainer _ _ _ _ _ _ _ _ Hrun)
    as (Hlogger & _ & _ & _ & Htl & _ & Hresume & Hsanity & _).
  exists L, st'. repeat split; assumption.
Defined.

(** ** More on the preprocessing and on the entry point *)

Section MoreEntryPoint.
Context {W : Type} `{Externals W}.

Lemma emits_only_for_each {A X} (xs : list X) (body : X -> A -> M W A) acc P :
  (forall x a, emits_only (body x a) P) -> emits_only (for_each xs body acc) P.
Proof.
  intros Hbody. revert acc. induction xs as [|x xs IH]; intros acc; simpl.
  - apply emits_only_stateless, stateless_ret.
  - apply emits_only_bind; [apply Hbody | intros acc'; apply IH].
Qed.

Lemma emits_only_weaken {A} (m : M W A) (P Q : event -> Prop) :
  (forall e, P e -> Q e) -> emits_only m P -> emits_only m Q.
Proof.
  intros HPQ Hm s r s' Hrun. destruct (Hm _ _ _ Hrun) as (new & Ht & HP).
  exists new. split; [exact Ht|]. eapply Forall_impl; eassumption.
Qed.

End MoreEntryPoint.

(** Walks down binds, loops and branches whose calls are all allowed. *)
Ltac emits_auto :=
  lazymatch goal with
  | |- emits_only (bind _ _) _ =>
      apply emits_only_bind; [emits_auto | intros ?; cbv beta zeta; emits_auto]
  | |- emits_only (for_each _ _ _) _ =>
      apply emits_only_for_each; intros ? ?; cbv beta zeta; emits_auto
  | |- emits_only (emit _) _ => apply emits_only_emit; exact I
  | |- emits_only (match ?x with _ => _ end) _ => destruct x; emits_auto
  | |- _ => apply emits_only_stateless; solve [auto with stateless]
  end.

Section MoreEntryPoint2.
Context {W : Type} `{Externals W}.

(** The preprocessing only resamples and regenerates duration files. *)
Lemma resample_data_generate_durations_emits config_data :
  emits_only (W := W) (resample_data_generate_durations config_data)
    is_preprocessing.
Proof. unfold resample_data_generate_durations. emits_auto. Qed.

Lemma main_seed_emits configs : emits_only (W := W) (main_seed configs) is_seed.
Proof. unfold main_seed. emits_auto. Qed.

Lemma main_configs_emits args : emits_only (W := W) (main_configs args) is_print.
Proof. unfold main_configs. emits_auto. Qed.

(** X11. The order of a run of the entry point. A run that returns has, in
    this order: printed the loaded checkpoint (test-only mode only), seeded
    the generators, resampled and regenerated duration files, printed the
    experiment directory, called [fit] (or loaded the state dictionary of
    the checkpoint) and called [test]. It calls [fit] exactly when the
    state dictionary handed to [single_run] is [None], which is always so
    without [--test_from_checkpoint]. *)
Theorem main_prepares_then_runs args (st st' : state W) :
  main args st = (inr tt, st') ->
  exists configs test_model_state_dict s1 L loaded seeds preprocessing print,
    main_configs args st = (inr (configs, test_model_state_dict), s1) /\
    (test_from_checkpoint args = None -> test_model_state_dict = VNone) /\
    Forall is_print loaded /\
    Forall is_seed seeds /\
    Forall is_preprocessing preprocessing /\
    is_print print /\
    trace st' =
      trace st ++ loaded ++ seeds ++ preprocessing ++
        [print;
         if is_None test_model_state_dict
         then EvFit (l_trainer L) (l_desed_training L)
         else EvLoadStateDict (l_desed_training L) test_model_state_dict;
         EvTest (l_trainer L) (l_desed_training L) "best"].
Proof.
  intros Hrun. unfold main in Hrun.
  apply bind_inr in Hrun as ([configs tsd] & s1 & Hcfg & Hrun).
  cbv beta zeta in Hrun. simpl fst in Hrun. simpl snd in Hrun.
  apply bind_inr in Hrun as (u1 & s2 & Hseed & Hrun).
  apply bind_inr in Hrun as (data & s3 & Hdata & Hrun).
  apply lift_inr in Hdata as [Hdata ->].
  apply bind_inr in Hrun as (u2 & s4 & Hprep & Hrun).
  unfold single_run in Hrun.
  apply bind_inr in Hrun as (L & s5 & Hloc & Hrun).
  destruct (main_configs_emits _ _ _ _ Hcfg) as (loaded & Ht1 & Hp1).
  destruct (main_seed_emits _ _ _ _ Hseed) as (seeds & Ht2 & Hp2).
  destruct (resample_data_generate_durations_emits _ _ _ _ Hprep)
    as (prep & Ht3 & Hp3).
  pose proof (single_run_locals_trace _ _ _ _ _ _ _ _ Hloc) as Ht4.
  destruct (single_run_after_locals _ _ _ _ tsd _ _ _ _ Hloc)
    as (st2 & Hsr & Ht5).
  unfold single_run in Hsr. rewrite (bind_ok _ _ _ _ _ Hloc) in Hsr.
  rewrite Hrun in Hsr. inversion Hsr. subst st2.
  exists configs, tsd, s1, L, loaded, seeds, prep.
  exists (EvPrint [VStr "experiment dir: ";
                   VStr (tb_log_dir (l_logger L) (world s4))]).
  split; [exact Hcfg|]. split.
  { intros Hnone. unfold main_configs in Hcfg. rewrite Hnone in Hcfg.
    apply bind_inr in Hcfg as (yaml & s0 & _ & Hret).
    apply ret_inr in Hret as [Hret _]. inversion Hret. reflexivity. }
  repeat (split; [assumption|]).
  split; [exact I|].
  rewrite Ht5, Ht4, Ht3, Ht2, Ht1. rewrite <- !app_assoc. reflexivity.
Qed.

(** X2. A missing duration-file key. When the [data] section has every key
    but [test_dur], the procedure raises the [KeyError] only at the second
    pass of its second loop: the five resampling calls have been made, and
    the duration file of the synthetic validation set has been regenerated
    if it was absent or the last resampling call reported work. *)
Theorem resample_missing_test_dur config_data (st : state W)
    synth synth44 synth_val synth_val44 weak weak44 unlabeled unlabeled44
    test test44 fs synth_val_dur e :
  getitem config_data "synth_folder_44k" = inr synth44 ->
  getitem config_data "synth_folder" = inr synth ->
  getitem config_data "synth_val_folder_44k" = inr synth_val44 ->
  getitem config_data "synth_val_folder" = inr synth_val ->
  getitem config_data "weak_folder_44k" = inr weak44 ->
  getitem config_data "weak_folder" = inr weak ->
  getitem config_data "unlabeled_folder_44k" = inr unlabeled44 ->
  getitem config_data "unlabeled_folder" = inr unlabeled ->
  getitem config_data "test_folder_44k" = inr test44 ->
  getitem config_data "test_folder" = inr test ->
  getitem config_data "fs" = inr fs ->
  getitem config_data "synth_val_dur" = inr synth_val_dur ->
  getitem config_data "test_dur" = inl e ->
  let r1 := EvResampleFolder synth44 synth fs in
  let r2 := EvResampleFolder synth_val44 synth_val fs in
  let r3 := EvResampleFolder weak44 weak fs in
  let r4 := EvResampleFolder unlabeled44 unlabeled fs in
  let r5 := EvResampleFolder test44 test fs in
  let w4 :=
    ext_effect r4 (ext_effect r3 (ext_effect r2 (ext_effect r1 (world st)))) in
  let computed := resample_folder_returns test44 test fs w4 in
  let w5 := ext_effect r5 w4 in
  let g1 := EvGenerateDurations synth_val synth_val_dur in
  let regenerate1 := negb (os_path_exists synth_val_dur w5) || computed in
  exists st',
    resample_data_generate_durations config_data st = (inl e, st') /\
    trace st' =
      trace st ++ [r1; r2; r3; r4; r5] ++ (if regenerate1 then [g1] else []).
Proof.
  intros H1 H2 H3 H4 H5 H6 H7 H8 H9 H10 Hfs Hd1 Hd2.
  intros r1 r2 r3 r4 r5 w4 computed w5 g1 regenerate1.
  unfold resample_data_generate_durations, dsets. simpl for_each.
  unfold bind, lift, query, emit, ret, raise, lift.
  cbn -[getitem]. cbv beta iota delta [String.append].
  rewrite H1, H2, H3, H4, H5, H6, H7, H8, H9, H10, Hfs, Hd1, Hd2.
  cbn -[getitem].
  subst r1 r2 r3 r4 r5 w4 computed w5 g1 regenerate1.
  destruct (os_path_exists synth_val_dur _);
    destruct (resample_folder_returns test44 test fs _);
    cbn -[getitem];
    (eexists; split; [reflexivity|]); cbn;
    rewrite <- ?app_assoc; reflexivity.
Qed.

End MoreEntryPoint2.

(** A training run of the laboratory entry point. *)
Lemma main_prepares_then_runs_witness :
  exists st' configs s1,
    main Lab.args Lab.st0 = (inr tt, st') /\
    main_configs Lab.args Lab.st0 = (inr (configs, VNone), s1).
Proof.
  destruct (returns_with_inr (main Lab.args Lab.st0) (fun _ => true))
    as ([] & st' & Hrun & _); [vm_compute; reflexivity|].
  destruct (main_prepares_then_runs Lab.args Lab.st0 st' Hrun)
    as (configs & tsd & s1 & L & loaded & seeds & prep & print & Hcfg & Hnone
        & _).
  rewrite (Hnone eq_refl) in Hcfg.
  exists st', configs, s1. split; assumption.
Defined.

(** In the laboratory the synthetic validation folder is resampled, the
    test folder is not, and both duration files exist: five resampling
    calls and nothing else. *)
Lemma resample_data_generate_durations_trace_witness :
  exists st',
    resample_data_generate_durations Lab.data_section Lab.st0 = (inr tt, st') /\
    trace st' =
      [EvResampleFolder (VStr "data/synth/44k") (VStr "data/synth/16k") (VInt 16000);
       EvResampleFolder (VStr "data/synth_val/44k") (VStr "data/synth_val/16k")
         (VInt 16000);
       EvResampleFolder (VStr "data/weak/44k") (VStr "data/weak/16k") (VInt 16000);
       EvResampleFolder (VStr "data/unlabel/44k") (VStr "data/unlabel/16k")
         (VInt 16000);
       EvResampleFolder (VStr "data/test/44k") (VStr "data/test/16k") (VInt 16000)].
Proof.
  destruct (resample_data_generate_durations_trace Lab.data_section Lab.st0
              (VStr "data/synth/16k") (VStr "data/synth/44k")
              (VStr "data/synth_val/16k") (VStr "data/synth_val/44k")
              (VStr "data/weak/16k") (VStr "data/weak/44k")
              (VStr "data/unlabel/16k") (VStr "data/unlabel/44k")
              (VStr "data/test/16k") (VStr "data/test/44k") (VInt 16000)
              (VStr "data/synth_val_dur.tsv") (VStr "data/test_dur.tsv")
              eq_refl eq_refl eq_refl eq_refl eq_refl eq_refl eq_refl eq_refl
              eq_refl eq_refl eq_refl eq_refl eq_refl)
    as (st' & Hrun & Htrace).
  exists st'. split; [exact Hrun|]. rewrite Htrace. vm_compute. reflexivity.
Defined.

(** The laboratory [data] section without [test_dur]. *)
Lemma resample_missing_test_dur_witness :
  exists st',
    resample_data_generate_durations LabMore.data_without_test_dur Lab.st0
      = (inl (KeyError (VStr "test_dur")), st') /\
    map call_of (trace st') =
      [CallResample; CallResample; CallResample; CallResample; CallResample].
Proof.
  destruct (resample_missing_test_dur LabMore.data_without_test_dur Lab.st0
              (VStr "data/synth/16k") (VStr "data/synth/44k")
              (VStr "data/synth_val/16k") (VStr "data/synth_val/44k")
              (VStr "data/weak/16k") (VStr "data/weak/44k")
              (VStr "data/unlabel/16k") (VStr "data/unlabel/44k")
              (VStr "data/test/16k") (VStr "data/test/44k") (VInt 16000)
              (VStr "data/synth_val_dur.tsv") (KeyError (VStr "test_dur"))
              eq_refl eq_refl eq_refl eq_refl eq_refl eq_refl eq_refl eq_refl
              eq_refl eq_refl eq_refl eq_refl eq_refl)
    as (st' & Hrun & Htrace).
  exists st'. split; [exact Hrun|]. rewrite Htrace. vm_compute. reflexivity.
Defined.

(** ** Edge fractions of the weak split *)

(** Python's [round] of a whole number is the number. *)
Lemma py_round_whole q z : q == inject_Z z -> py_round q = z.
Proof.
  intros Hq. unfold py_round.
  assert (Hf : Qfloor q = z) by (rewrite Hq; apply Qfloor_Z).
  rewrite Hf.
  assert (Hzero : q - inject_Z z == 0) by (rewrite Hq; ring).
  assert (Hcmp : Qcompare (q - inject_Z z) (1 # 2) = Lt).
  { rewrite Hzero. reflexivity. }
  rewrite Hcmp. reflexivity.
Qed.

Lemma sample_size_all n : sample_size 1 n = n.
Proof.
  unfold sample_size. rewrite (py_round_whole _ (Z.of_nat n)).
  - apply Nat2Z.id.
  - ring.
Qed.

Lemma sample_size_none n : sample_size 0 n = 0%nat.
Proof.
  unfold sample_size. rewrite (py_round_whole _ 0); [reflexivity | ring].
Qed.

Lemma filter_keeps_all {A} (P : A -> Prop) `{forall x, Decision (P x)} l :
  Forall P l -> filter P l = l.
Proof.
  induction 1 as [|x l Hx _ IH]; [reflexivity|].
  rewrite filter_cons_True by exact Hx. rewrite IH. reflexivity.
Qed.

(** X13. The edge fractions of the weak split. With a sample that honours
    pandas' contract, a fraction of 1.0 puts every row of the file in the
    train frame and leaves the validation frame empty; a fraction of 0.0
    leaves the train frame empty and makes the validation frame the whole
    file, in file order. *)
Theorem split_weak_df_edge_fractions (rows : list row) locs :
  (sample_contract 1 (length rows) locs ->
   exists train,
     split_weak_df (range_indexed rows) locs = inr (train, []) /\
     length train = length rows /\
     map snd train ≡ₚ rows) /\
  (sample_contract 0 (length rows) locs ->
   split_weak_df (range_indexed rows) locs = inr ([], range_indexed rows)).
Proof.
  split; intros (Hnd & Hin & Hlen).
  - rewrite sample_size_all in Hlen.
    destruct (split_weak_df_partition rows locs Hnd Hin)
      as (train & valid & Hsp & _ & _ & _ & _ & Hlt & Hlv & _ & Hperm).
    rewrite Hlen in Hlt, Hlv. rewrite Nat.sub_diag in Hlv.
    destruct valid; [|discriminate Hlv].
    exists train. split; [exact Hsp|]. split; [exact Hlt|].
    simpl in Hperm. rewrite app_nil_r in Hperm. exact Hperm.
  - rewrite sample_size_none in Hlen. destruct locs; [|discriminate Hlen].
    unfold split_weak_df. simpl df_take. unfold df_index. simpl map.
    rewrite (df_drop_ok rows []) by constructor.
    rewrite filter_keeps_all.
    + unfold reset_index. rewrite rows_of_range_indexed. reflexivity.
    + apply Forall_forall. intros x _ Hx. inversion Hx.
Qed.

(** Three rows, all of them sampled. *)
Lemma split_weak_df_edge_fractions_witness :
  exists train,
    split_weak_df (range_indexed (Lab.clip_rows "w" 3)) [2; 0; 1]%nat
      = inr (train, []) /\
    length train = 3%nat.
Proof.
  destruct (split_weak_df_edge_fractions (Lab.clip_rows "w" 3) [2; 0; 1]%nat)
    as [Hall _].
  destruct Hall as (train & Hsplit & Hlen & _).
  - split; [|split].
    + apply (bool_decide_unpack _). vm_compute. exact I.
    + apply (bool_decide_unpack _). vm_compute. exact I.
    + vm_compute. reflexivity.
  - exists train. split; assumption.
Defined.

Section CheckpointErrors.
Context {W : Type} `{Externals W}.

(** X12. A checkpoint without hyper-parameters. In test-only mode, when the
    loaded checkpoint has no [hyper_parameters] entry (or is no mapping),
    the entry point raises at once: nothing is printed, seeded, resampled,
    trained or tested. *)
Theorem main_checkpoint_without_hyper_parameters args path (st : state W) e :
  test_from_checkpoint args = Some path ->
  getitem (torch_load path (world st)) "hyper_parameters" = inl e ->
  main args st = (inl e, st).
Proof.
  intros Hpath Hhp. unfold main, main_configs. rewrite Hpath.
  unfold bind, query, lift. simpl. rewrite Hhp. reflexivity.
Qed.

End CheckpointErrors.

(** Testing in the laboratory from a path that holds no checkpoint. *)
Lemma main_checkpoint_without_hyper_parameters_witness :
  main LabMore.missing_checkpoint_args Lab.st0 = (inl TypeError, Lab.st0).
Proof.
  apply (main_checkpoint_without_hyper_parameters
           LabMore.missing_checkpoint_args "exp/none.ckpt" Lab.st0 TypeError
           eq_refl).
  vm_compute. reflexivity.
Defined.

(** ** Runs that return *)

Section SetUpReturns.
Context {W : Type} `{Externals W}.

Lemma range_indexed_length (rows : list row) :
  length (range_indexed rows) = length rows.
Proof.
  rewrite <- (length_map snd (range_indexed rows)), rows_of_range_indexed.
  reflexivity.
Qed.

(** Lines 88-92 return when the positions drawn lie in the frame. *)
Lemma split_weak_df_returns (rows : list row) locs :
  Forall (fun i => (i < length rows)%nat) locs ->
  exists train valid, split_weak_df (range_indexed rows) locs = inr (train, valid).
Proof.
  intros Hin.
  destruct (df_take_ok rows locs Hin) as (sampled & Htake & Hidx & _).
  pose proof (df_drop_ok rows locs Hin) as Hdrop.
  unfold split_weak_df. rewrite Htake, Hidx, Hdrop. eauto.
Qed.

End SetUpReturns.

(** One step forward in a chain of binds whose head returns. *)
Ltac fwd_leaf :=
  first
    [ eapply getitem2_ok; eassumption
    | apply lift_ok; first [eassumption | reflexivity]
    | apply random_samplers_ok; assumption
    | eapply compute_epoch_len_ok; eassumption
    | reflexivity ].

Ltac fwd :=
  lazymatch goal with
  | |- bind ?m ?k ?s = _ =>
      etransitivity; [eapply (bind_ok m k s); fwd_leaf |];
      cbv beta zeta iota delta [negb]
  end.

(** Unpacks [configured] and reads the sections from the configuration
    that [config.update] returns. *)
Ltac configured_inv Hcfg log_dir :=
  destruct Hcfg as (data & feats & training & kwargs & opt_section & bs & Hdata
    & Hfeats & Htraining & Hnet & Hopt & Hcfg);
  match type of Hdata with
  | getitem ?config _ = _ =>
      destruct config as [| | | | | |entries]; try discriminate Hdata;
      pose proof (eq_refl : dict_update1 (VDict entries) "log_dir" (VStr log_dir)
                            = inr (VDict (<["log_dir" := VStr log_dir]> entries)))
        as Hup;
      pose proof (getitem_update_eq _ _ _ _ Hup) as Hlog;
      rewrite <- (getitem_update_ne _ _ _ _ "data" Hup) in Hdata by discriminate;
      rewrite <- (getitem_update_ne _ _ _ _ "feats" Hup) in Hfeats by discriminate;
      rewrite <- (getitem_update_ne _ _ _ _ "training" Hup) in Htraining
        by discriminate;
      rewrite <- (getitem_update_ne _ _ _ _ "net" Hup) in Hnet by discriminate;
      rewrite <- (getitem_update_ne _ _ _ _ "opt" Hup) in Hopt by discriminate
  end;
  destruct Hcfg as (Haml & Hnf & Hhl & Hns & Hfs & Hstsv & Hsf & Hwtsv & Hws
    & Hseed & Hwf & Huf & Hbs & Hb0 & Hb1 & Hb2 & Hacc & Hnw & Hdkeys & Htkeys
    & Hne & Hlr);
  repeat match goal with
  | Hk : Forall _ (_ :: _) |- _ =>
      let Hx := fresh "Hkey" in
      apply Forall_cons in Hk as [[? Hx] Hk]
  end;
  destruct Hlr as [lr Hlr];
  match type of Htraining with
  | _ = inr ?t =>
      destruct t as [| | | | | |tentries]; try discriminate Hacc
  end.

Section SetUpReturns2.
Context {W : Type} `{Externals W}.

(** The set-up of [single_run] returns on a configuration that holds every
    setting it reads, when pandas draws inside the frame, the three
    training subsets are non-empty and no divisor of line 147 is zero. *)
Lemma single_run_locals_returns config log_dir devices resume fdr
    (st : state W) S :
  configured config fdr S ->
  sample_in_frame S (world st) ->
  Forall (fun n => 0 < n) (subset_sizes S (world st)) ->
  set_batch_size_synth S * set_accumulate_batches S <> 0 ->
  set_batch_size_weak S * set_accumulate_batches S <> 0 ->
  set_batch_size_unlabeled S * set_accumulate_batches S <> 0 ->
  exists L st1,
    single_run_locals config log_dir devices resume fdr st = (inr L, st1) /\
    l_tot_train_data L = training_subsets S (world st).
Proof.
  intros Hcfg Hframe Hsizes Hz0 Hz1 Hz2.
  configured_inv Hcfg log_dir.
  destruct (split_weak_df_returns _ _ Hframe) as (train & valid & Hsplit).
  unfold subset_sizes in Hsizes.
  apply (proj1 (List.Forall_map _ _ _)) in Hsizes.
  unfold training_subsets, settings_train_weak_df in *.
  fold (settings_sample S (world st)) in Hsplit.
  unfold settings_weak_rows in *.
  rewrite Hsplit in *. simpl fst in *.
  unfold single_run_locals.
  destruct fdr.
  - eexists. eexists. split.
    + repeat fwd. reflexivity.
    + reflexivity.
  - destruct (Hne eq_refl) as [ne Hne'].
    eexists. eexists. split.
    + repeat fwd. reflexivity.
    + reflexivity.
Qed.

End SetUpReturns2.

Section SetUpReturns3.
Context {W : Type} `{Externals W}.

(** An empty training subset: the sampler of line 136 raises [ValueError],
    before an epoch length is computed. *)
Lemma single_run_locals_empty_subset config log_dir devices resume fdr
    (st : state W) S :
  configured config fdr S ->
  sample_in_frame S (world st) ->
  Exists (fun n => n <= 0) (subset_sizes S (world st)) ->
  single_run_locals config log_dir devices resume fdr st = (inl ValueError, st).
Proof.
  intros Hcfg Hframe Hsizes.
  configured_inv Hcfg log_dir.
  destruct (split_weak_df_returns _ _ Hframe) as (train & valid & Hsplit).
  unfold subset_sizes in Hsizes.
  apply (proj1 (List.Exists_map _ _ _)) in Hsizes.
  unfold training_subsets, settings_train_weak_df in *.
  fold (settings_sample S (world st)) in Hsplit.
  unfold settings_weak_rows in *.
  rewrite Hsplit in *. simpl fst in *.
  unfold single_run_locals.
  repeat fwd.
  apply bind_raise, random_samplers_raise. exact Hsizes.
Qed.

(** X14. An empty training subset. On a configuration that holds every
    setting the set-up reads, an empty synthetic, weak or unlabeled subset
    makes [single_run] raise the [ValueError] of the sampler of line 136:
    nothing has been printed, no epoch length has been computed, and no
    trainer call is made. *)
Theorem single_run_empty_subset_raises config log_dir devices resume tsd fdr
    (st : state W) S :
  configured config fdr S ->
  sample_in_frame S (world st) ->
  Exists (fun n => n <= 0) (subset_sizes S (world st)) ->
  single_run config log_dir devices resume tsd fdr st = (inl ValueError, st).
Proof.
  intros Hcfg Hframe Hsizes.
  apply single_run_locals_raise.
  apply (single_run_locals_empty_subset _ _ _ _ _ _ S); assumption.
Qed.

End SetUpReturns3.

(** The laboratory configurations hold their settings. *)
Lemma lab_configured accumulate seed fdr :
  configured (Lab.config_with accumulate seed) fdr
    (LabSettings.settings accumulate seed).
Proof.
  exists Lab.data_section, Lab.feats_section,
    (Lab.training_section accumulate seed), LabSettings.net_kwargs,
    Lab.opt_section, [VInt 12; VInt 12; VInt 24].
  repeat (split; [reflexivity|]).
  split; [repeat constructor; eexists; reflexivity|].
  split; [repeat constructor; eexists; reflexivity|].
  split; [intros _; eexists; reflexivity|].
  eexists; reflexivity.
Qed.


(** With no unlabeled clip on the disk of the laboratory, the run stops at
    the sampler. *)
Lemma single_run_empty_subset_raises_witness :
  let st := mkState LabSettings.no_unlabeled_clips [] in
  subset_sizes (LabSettings.settings 1 42) (world st) = [120; 90; 0] /\
  single_run Lab.config "./exp/2021_baseline" (VStr "0") None VNone false st
    = (inl ValueError, st).
Proof.
  intros st. split; [vm_compute; reflexivity|].
  apply (single_run_empty_subset_raises Lab.config "./exp/2021_baseline"
           (VStr "0") None VNone false st (LabSettings.settings 1 42)).
  - apply lab_configured.
  - apply (bool_decide_unpack _). vm_compute. exact I.
  - apply (bool_decide_unpack _). vm_compute. exact I.
Defined.

(** ** Fit, load and test (lines 223-228) *)

Section TrainerCalls.
Context {W : Type} `{Externals W}.

(** C6. [single_run] calls [trainer.fit] exactly when [test_state_dict] is
    [None]; given a state dictionary it trains nothing and loads the
    dictionary into the model instead; either way one [trainer.test] call
    follows, and it is the last call. Whenever the set-up of lines 67-221
    returns, [single_run] returns, having made, after the [print] of the
    experiment directory, exactly these two calls; the set-up does return
    on a configuration that holds every setting it reads, when pandas draws
    inside the weak frame, the training subsets are non-empty and no
    divisor of the epoch length is zero. A set-up that raises a Python
    exception makes [single_run] raise it, with no trainer call made. *)
Theorem single_run_trains_iff_no_state_dict config log_dir devices resume tsd fdr
    (st : state W) :
  let fit_or_load L :=
    if is_None tsd then EvFit (l_trainer L) (l_desed_training L)
    else EvLoadStateDict (l_desed_training L) tsd in
  (forall L st1,
     single_run_locals config log_dir devices resume fdr st = (inr L, st1) ->
     exists print st2,
       is_print print /\
       single_run config log_dir devices resume tsd fdr st = (inr tt, st2) /\
       trace st2 =
         trace st ++
           [print; fit_or_load L; EvTest (l_trainer L) (l_desed_training L) "best"] /\
       ((exists tr task,
           In (EvFit tr task)
             [print; fit_or_load L;
              EvTest (l_trainer L) (l_desed_training L) "best"]) <->
        tsd = VNone) /\
       (tsd <> VNone -> fit_or_load L = EvLoadStateDict (l_desed_training L) tsd)) /\
  (forall S,
     configured config fdr S ->
     sample_in_frame S (world st) ->
     Forall (fun n => 0 < n) (subset_sizes S (world st)) ->
     Forall (fun b => b * set_accumulate_batches S <> 0) (batch_sizes S) ->
     exists L st1,
       single_run_locals config log_dir devices resume fdr st = (inr L, st1)) /\
  (forall e st1,
     single_run_locals config log_dir devices resume fdr st = (inl e, st1) ->
     e <> NotModelled ->
     single_run config log_dir devices resume tsd fdr st = (inl e, st1) /\
     exists new, trace st1 = trace st ++ new /\ Forall is_print new).
Proof.
  intros fit_or_load. split; [|split].
  - intros L st1 Hloc.
    destruct (single_run_after_locals _ _ _ _ tsd _ _ _ _ Hloc)
      as (st2 & Hrun & Ht2).
    rewrite (single_run_locals_trace _ _ _ _ _ _ _ _ Hloc) in Ht2.
    rewrite <- app_assoc in Ht2.
    eexists. exists st2. split; [|split; [exact Hrun|split; [exact Ht2|]]].
    { exact I. }
    subst fit_or_load. split; [split|].
    + intros (tr & task & [Hin|[Hin|[Hin|[]]]]); try discriminate Hin.
      destruct tsd; simpl in Hin; try discriminate Hin. reflexivity.
    + intros ->. simpl. eauto.
    + intros Hsome. destruct tsd; try reflexivity. destruct Hsome. reflexivity.
  - intros S Hcfg Hframe Hsizes Hdiv.
    unfold batch_sizes in Hdiv.
    apply Forall_cons in Hdiv as [Hz0 Hdiv].
    apply Forall_cons in Hdiv as [Hz1 Hdiv].
    apply Forall_cons in Hdiv as [Hz2 _].
    destruct (single_run_locals_returns config log_dir devices resume fdr st S
                Hcfg Hframe Hsizes Hz0 Hz1 Hz2) as (L & st1 & Hloc & _).
    exists L, st1. exact Hloc.
  - intros e st1 Hloc _. split.
    + apply single_run_locals_raise, Hloc.
    + exact (single_run_locals_emits _ _ _ _ _ _ _ _ Hloc).
Qed.

End TrainerCalls.

(** In the laboratory, a training run prints, fits and tests, and a run
    given a state dictionary prints, loads it and tests. *)
Lemma single_run_trains_iff_no_state_dict_witness :
  (exists st2,
     single_run Lab.config "./exp/2021_baseline" (VStr "0") None VNone false
       Lab.st0 = (inr tt, st2) /\
     map call_of (trace st2) = [CallPrint; CallFit; CallTest]) /\
  (exists st2,
     single_run Lab.config "./exp/2021_baseline" (VStr "0") None Lab.state_dict
       false Lab.st0 = (inr tt, st2) /\
     map call_of (trace st2) = [CallPrint; CallLoadStateDict; CallTest]).
Proof.
  assert (Hloc : exists L st1,
            single_run_locals Lab.config "./exp/2021_baseline" (VStr "0") None
              false Lab.st0 = (inr L, st1)).
  { apply (single_run_trains_iff_no_state_dict Lab.config "./exp/2021_baseline"
             (VStr "0") None VNone false Lab.st0) with (S := LabSettings.settings 1 42).
    - apply lab_configured.
    - apply (bool_decide_unpack _). vm_compute. exact I.
    - apply (bool_decide_unpack _). vm_compute. exact I.
    - repeat constructor; discriminate. }
  destruct Hloc as (L & st1 & Hloc).
  split.
  - destruct (proj1 (single_run_trains_iff_no_state_dict Lab.config
                       "./exp/2021_baseline" (VStr "0") None VNone false Lab.st0)
                L st1 Hloc) as (print & st2 & Hp & Hrun & Ht & _).
    exists st2. split; [exact Hrun|]. rewrite Ht.
    destruct print; try destruct Hp. reflexivity.
  - destruct (proj1 (single_run_trains_iff_no_state_dict Lab.config
                       "./exp/2021_baseline" (VStr "0") None Lab.state_dict false
                       Lab.st0)
                L st1 Hloc) as (print & st2 & Hp & Hrun & Ht & _).
    exists st2. split; [exact Hrun|]. rewrite Ht.
    destruct print; try destruct Hp. reflexivity.
Defined.

(** ** An empty epoch is not checked *)

Section EmptyEpochRuns.
Context {W : Type} `{Externals W}.

(** C2, as the code has it. On a configuration that holds every setting the
    set-up reads, with positive batch sizes and accumulation factor and
    non-empty training subsets: when the batch size of a subset times the
    accumulation factor exceeds the size of the subset, the epoch length is
    zero, and [single_run] raises no error: the ramp-up of the scheduler is
    [n_epochs_warmup * 0], the trainer is built, and the run goes on to
    call [fit] (or to load the state dictionary) and [test], and returns. *)
Theorem single_run_empty_epoch_not_checked config log_dir devices resume tsd fdr
    (st : state W) S :
  configured config fdr S ->
  sample_in_frame S (world st) ->
  Forall (fun n => 0 < n) (subset_sizes S (world st)) ->
  Forall (fun b => 0 < b) (batch_sizes S) ->
  0 < set_accumulate_batches S ->
  (exists i size b,
     subset_sizes S (world st) !! i = Some size /\
     batch_sizes S !! i = Some b /\
     size < b * set_accumulate_batches S) ->
  exists L st1 st2 print,
    single_run_locals config log_dir devices resume fdr st = (inr L, st1) /\
    l_tot_train_data L = training_subsets S (world st) /\
    l_epoch_len L = 0 /\
    l_exp_steps L = VInt 0 /\
    ew_rampup_length (sd_scheduler (l_exp_scheduler L)) = VInt 0 /\
    is_print print /\
    single_run config log_dir devices resume tsd fdr st = (inr tt, st2) /\
    trace st2 =
      trace st ++
        [print;
         if is_None tsd then EvFit (l_trainer L) (l_desed_training L)
         else EvLoadStateDict (l_desed_training L) tsd;
         EvTest (l_trainer L) (l_desed_training L) "best"].
Proof.
  intros Hcfg Hframe Hsizes Hbatch Hacc Hsmall.
  unfold batch_sizes in Hbatch, Hsmall.
  apply Forall_cons in Hbatch as [Hp0 Hbatch].
  apply Forall_cons in Hbatch as [Hp1 Hbatch].
  apply Forall_cons in Hbatch as [Hp2 _].
  destruct (single_run_locals_returns config log_dir devices resume fdr st S
              Hcfg Hframe Hsizes) as (L & st1 & Hloc & Htot); [nia..|].
  destruct Hcfg as (data & feats & training & kwargs & opt_section & bs & _ & _
    & Htr & _ & _ & _ & _ & _ & _ & _ & _ & _ & _ & _ & _ & _ & _ & Hbs & Hb0
    & Hb1 & Hb2 & Haccum & Hnw & _).
  destruct (locals_epoch_len _ _ _ _ _ _ _ _ _ _ _ _ _ _
              Hloc Htr Hbs Hb0 Hb1 Hb2 Haccum) as (_ & _ & Hel).
  rewrite Htot in Hel. fold (subset_sizes S (world st)) in Hel.
  assert (Hzero : l_epoch_len L = 0).
  { rewrite Hel. clear Hel.
    unfold subset_sizes, training_subsets in *. simpl map in *.
    apply Forall_cons in Hsizes as [Hs0 Hsizes].
    apply Forall_cons in Hsizes as [Hs1 Hsizes].
    apply Forall_cons in Hsizes as [Hs2 _].
    apply spec_epoch_len_zero; try lia.
    destruct Hsmall as (i & size & b & Hi & Hb & Hlt).
    destruct i as [|[|[|i]]]; simpl in Hi, Hb; try discriminate Hi;
      inversion Hi; inversion Hb; subst; auto. }
  destruct (locals_optimizer_scheduler _ _ _ _ _ _ _ _ Hloc)
    as (kwargs' & training' & nw & opt_section' & lr & _ & Htr' & Hnw' & _
        & _ & _ & _ & Hmul & Hsched & _).
  rewrite Htr in Htr'. inversion Htr'. subst training'.
  rewrite Hnw in Hnw'. inversion Hnw'. subst nw.
  rewrite Hzero in Hmul. simpl in Hmul. rewrite Z.mul_0_r in Hmul.
  inversion Hmul as [Hsteps].
  destruct (single_run_after_locals _ _ _ _ tsd _ _ _ _ Hloc)
    as (st2 & Hrun & Ht2).
  rewrite (single_run_locals_trace _ _ _ _ _ _ _ _ Hloc) in Ht2.
  rewrite <- app_assoc in Ht2.
  exists L, st1, st2. eexists.
  split; [exact Hloc|]. split; [exact Htot|]. split; [exact Hzero|].
  split; [symmetry; exact Hsteps|].
  split; [rewrite Hsched; simpl; symmetry; exact Hsteps|].
  split; [|split; [exact Hrun | exact Ht2]]. exact I.
Qed.

End EmptyEpochRuns.

(** In the laboratory, an accumulation factor of 8 asks the 90 weak clips
    for 96 per step: the epoch is empty, and the run trains and tests. *)
Lemma single_run_empty_epoch_witness :
  exists L st1 st2,
    single_run_locals (Lab.config_with 8 42) "./exp/2021_baseline" (VStr "0")
      None false Lab.st0 = (inr L, st1) /\
    subset_sizes (LabSettings.settings 8 42) Lab.w0 = [120; 90; 240] /\
    l_epoch_len L = 0 /\
    ew_rampup_length (sd_scheduler (l_exp_scheduler L)) = VInt 0 /\
    single_run (Lab.config_with 8 42) "./exp/2021_baseline" (VStr "0")
      None VNone false Lab.st0 = (inr tt, st2) /\
    map call_of (trace st2) = [CallPrint; CallFit; CallTest].
Proof.
  destruct (single_run_empty_epoch_not_checked
              (Lab.config_with 8 42) "./exp/2021_baseline" (VStr "0") None VNone
              false Lab.st0 (LabSettings.settings 8 42))
    as (L & st1 & st2 & print & Hloc & _ & Hel & _ & Hramp & Hp & Hrun & Ht).
  - apply lab_configured.
  - apply (bool_decide_unpack _). vm_compute. exact I.
  - apply (bool_decide_unpack _). vm_compute. exact I.
  - repeat constructor.
  - reflexivity.
  - exists 1%nat, 90, 12. repeat split; vm_compute; reflexivity.
  - exists L, st1, st2. split; [exact Hloc|].
    split; [vm_compute; reflexivity|].
    split; [exact Hel|]. split; [exact Hramp|]. split; [exact Hrun|].
    rewrite Ht. destruct print; try destruct Hp. reflexivity.
Defined.

(** ** Seeding (lines 257-262) *)

Section Seeding.
Context {W : Type} `{Externals W}.

(** Lines 257-262 on a configuration that has a seed. *)
Lemma main_seed_trace configs training seed (st : state W) :
  getitem configs "training" = inr training ->
  getitem training "seed" = inr seed ->
  exists st',
    main_seed configs st = (inr tt, st') /\
    trace st' =
      trace st ++
        (if truthy seed
         then [EvTorchManualSeed seed; EvNumpySeed seed; EvRandomSeed seed;
               EvSeedEverything seed]
         else []).
Proof.
  intros Htr Hseed. unfold main_seed.
  rewrite (bind_ok _ _ _ _ _ (getitem2_ok _ _ _ st _ _ Htr Hseed)).
  destruct (truthy seed).
  - unfold bind, emit. simpl. eexists. split; [reflexivity|]. simpl.
    rewrite <- !app_assoc. reflexivity.
  - eexists. split; [reflexivity|]. symmetry. apply app_nil_r.
Qed.

(** Without [--test_from_checkpoint] the configuration is the YAML file. *)
Lemma main_configs_training args (st : state W) :
  test_from_checkpoint args = None ->
  main_configs args st = (inr (yaml_safe_load (conf_file args) (world st), VNone), st).
Proof. intros Hnone. unfold main_configs. rewrite Hnone. reflexivity. Qed.

(** [single_run] seeds nothing. *)
Lemma single_run_emits config log_dir devices resume tsd fdr :
  emits_only (W := W) (single_run config log_dir devices resume tsd fdr)
    (fun e => ~ is_seed e).
Proof.
  unfold single_run. apply emits_only_bind.
  - eapply emits_only_weaken; [|apply single_run_locals_emits].
    intros [] He; try destruct He. intros [].
  - intros L. apply emits_only_bind.
    + destruct (is_None tsd); apply emits_only_emit; intros [].
    + intros _. apply emits_only_emit. intros [].
Qed.

(** Nor does what the entry point runs after lines 257-262. *)
Lemma main_after_seed_emits configs args tsd :
  emits_only (W := W)
    (data <- lift (getitem configs "data") ;;
     resample_data_generate_durations data ;;;
     single_run configs (log_dir args) (VStr (arg_gpus args))
       (arg_resume_from_checkpoint args) tsd (arg_fast_dev_run args))
    (fun e => ~ is_seed e).
Proof.
  apply emits_only_bind; [apply emits_only_stateless, stateless_lift|].
  intros data. apply emits_only_bind.
  - eapply emits_only_weaken; [|apply resample_data_generate_durations_emits].
    intros [] He; try destruct He; intros [].
  - intros _. apply single_run_emits.
Qed.

(** C9. The entry point seeds the global generators exactly when
    [training.seed] is truthy: once the configuration is loaded, the calls
    it makes start with the four seeding calls, each given the seed, when
    the seed is truthy, and no seeding call is made anywhere else; a seed
    of 0 seeds nothing. In a run that returns, the sample of the weak split
    is still drawn with that seed as its random state. *)
Theorem main_seeds_iff_seed_truthy args (st s1 : state W) configs tsd
    training seed :
  main_configs args st = (inr (configs, tsd), s1) ->
  getitem configs "training" = inr training ->
  getitem training "seed" = inr seed ->
  let seeding :=
    if truthy seed
    then [EvTorchManualSeed seed; EvNumpySeed seed; EvRandomSeed seed;
          EvSeedEverything seed]
    else [] in
  (exists loaded, trace s1 = trace st ++ loaded /\ Forall is_print loaded) /\
  (exists rest,
     trace (snd (main args st)) = trace s1 ++ seeding ++ rest /\
     Forall (fun e => ~ is_seed e) rest) /\
  (seed = VInt 0 -> seeding = []) /\
  (forall st',
     main args st = (inr tt, st') ->
     exists L s3 s4 preprocessing weak_split,
       trace s3 = trace s1 ++ seeding ++ preprocessing /\
       Forall is_preprocessing preprocessing /\
       single_run_locals configs (log_dir args) (VStr (arg_gpus args))
         (arg_resume_from_checkpoint args) (arg_fast_dev_run args) s3
         = (inr L, s4) /\
       getitem training "weak_split" = inr weak_split /\
       split_weak_df (l_weak_df L)
         (df_sample weak_split seed (length (l_weak_df L)) (world s3))
         = inr (l_train_weak_df L, l_valid_weak_df L)).
Proof.
  intros Hcfg Htr Hseed seeding.
  destruct (main_seed_trace configs training seed s1 Htr Hseed)
    as (s2 & Hms & Ht2). fold seeding in Ht2.
  assert (Hmain : main args st =
      (data <- lift (getitem configs "data") ;;
       resample_data_generate_durations data ;;;
       single_run configs (log_dir args) (VStr (arg_gpus args))
         (arg_resume_from_checkpoint args) tsd (arg_fast_dev_run args)) s2).
  { unfold main. rewrite (bind_ok _ _ _ _ _ Hcfg). cbv beta zeta.
    simpl fst. simpl snd. rewrite (bind_ok _ _ _ _ _ Hms). reflexivity. }
  split; [exact (main_configs_emits _ _ _ _ Hcfg)|]. split; [|split].
  - destruct (main args st) as [r st'] eqn:Hrun. symmetry in Hmain.
    destruct (main_after_seed_emits _ _ _ _ _ _ Hmain) as (rest & Ht & Hrest).
    exists rest. simpl. rewrite Ht, Ht2, <- app_assoc. split; [reflexivity|].
    exact Hrest.
  - intros ->. reflexivity.
  - intros st' Hrun. rewrite Hmain in Hrun.
    apply bind_inr in Hrun as (data & s2' & Hdata & Hrun).
    apply lift_inr in Hdata as [Hdata ->].
    apply bind_inr in Hrun as (u & s3 & Hprep & Hrun).
    unfold single_run in Hrun.
    apply bind_inr in Hrun as (L & s4 & Hloc & _).
    destruct (resample_data_generate_durations_emits _ _ _ _ Hprep)
      as (pre & Ht3 & Hpre).
    destruct (locals_weak_split _ _ _ _ _ _ _ _ Hloc)
      as (data' & weak_tsv & training' & weak_split & seed' & _ & _ & Htr'
          & Hws & Hseed' & _ & Hsplit & _).
    rewrite Htr in Htr'. inversion Htr'. subst training'.
    rewrite Hseed in Hseed'. inversion Hseed'. subst seed'.
    exists L, s3, s4, pre, weak_split.
    split; [rewrite Ht3, Ht2, <- app_assoc; reflexivity|].
    repeat (split; [assumption|]). exact Hsplit.
Qed.

End Seeding.

(** In the laboratory, the entry point run on the configuration whose seed
    is 42 starts with the four seeding calls, and the one run on the
    configuration whose seed is 0 returns without a seeding call, its weak
    split drawn with the random state 0. *)
Lemma main_seeds_iff_seed_truthy_witness :
  (exists rest,
     trace (snd (main Lab.args Lab.st0)) =
       [EvTorchManualSeed (VInt 42); EvNumpySeed (VInt 42);
        EvRandomSeed (VInt 42); EvSeedEverything (VInt 42)] ++ rest /\
     Forall (fun e => ~ is_seed e) rest) /\
  (exists st' L s3 s4,
     main LabMore.seed0_args Lab.st0 = (inr tt, st') /\
     Forall (fun e => ~ is_seed e) (trace st') /\
     single_run_locals (Lab.config_with 1 0) "./exp/2021_baseline" (VStr "0")
       None false s3 = (inr L, s4) /\
     split_weak_df (l_weak_df L)
       (df_sample (VFloat (9 # 10)) (VInt 0) (length (l_weak_df L)) (world s3))
       = inr (l_train_weak_df L, l_valid_weak_df L)).
Proof.
  split.
  - destruct (main_seeds_iff_seed_truthy Lab.args Lab.st0 Lab.st0 Lab.config
                VNone (Lab.training_section 1 42) (VInt 42))
      as (_ & (rest & Ht & Hrest) & _); try reflexivity.
    exists rest. split; [exact Ht | exact Hrest].
  - destruct (returns_with_inr (main LabMore.seed0_args Lab.st0) (fun _ => true))
      as ([] & st' & Hrun & _); [vm_compute; reflexivity|].
    destruct (main_seeds_iff_seed_truthy LabMore.seed0_args Lab.st0 Lab.st0
                (Lab.config_with 1 0) VNone (Lab.training_section 1 0) (VInt 0))
      as (_ & (rest & Ht & Hrest) & _ & Hsplit); try reflexivity.
    destruct (Hsplit st' Hrun)
      as (L & s3 & s4 & pre & ws & _ & _ & Hloc & Hws & Hsp).
    change (@inr exn pyval (VFloat (9 # 10)) = inr ws) in Hws.
    inversion Hws. subst ws.
    exists st', L, s3, s4. split; [exact Hrun|].
    split; [|split; [exact Hloc | exact Hsp]].
    rewrite Hrun in Ht. simpl in Ht. rewrite Ht. exact Hrest.
Defined.
